(** * Low-stock alert aggregation: a shallow embedding of
      [part-3_api_implementation/src/modules/alerts]

    The service [fetchLowStockAlerts] (alerts.service.js) and the controller
    [getLowStockAlerts] (alerts.controller.js) are embedded as functions in a
    state-and-rejection monad over the data store.  The data-access calls the
    service awaits ([Warehouse.findAll], [Inventory.findAll]) and the helpers
    it calls without defining them ([getThresholdByProductType],
    [hasRecentSalesActivity], [getAverageDailySales], [getSupplierForProduct])
    are parameters of the embedding. *)

From Stdlib Require Import ZArith List String Bool Lia.
From Stdlib Require Import Floats.SpecFloat.
Import ListNotations.
Open Scope Z_scope.

(* ===================================================================== *)
(** ** JavaScript numbers

    A JS number is an IEEE-754 binary64 value.  [avgDailySales] and the
    quotient [item.quantity / avgDailySales] are such numbers, so they are
    modelled with the binary64 instance of the Standard Library's executable
    floating-point specification; integers read from INT columns stay in [Z]. *)

Module JS.

Definition Number := spec_float.

Definition prec : Z := 53.
Definition emax : Z := 1024.

(** The number denoted by an integer literal or an INT column value. *)
Definition ofZ (z : Z) : Number := binary_normalize prec emax z 0 false.

(** [x / y] *)
Definition div (x y : Number) : Number := SFdiv prec emax x y.

(** [x > y]; false whenever either side is NaN. *)
Definition gt (x y : Number) : bool := SFltb y x.

(** [x >= y] *)
Definition ge (x y : Number) : bool := SFleb y x.

(** [x == y] on numbers (so [-0 == 0]). *)
Definition eqb (x y : Number) : bool := SFeqb x y.

Definition zero : Number := S754_zero false.

(** Largest integer not above a finite number [(-1)^s * m * 2^e]:
    [Z.shiftl] by a negative amount is the flooring division by a power
    of two. *)
Definition floorZ (s : bool) (m : positive) (e : Z) : Z :=
  Z.shiftl (cond_Zopp s (Zpos m)) e.

(** [Math.floor]: infinities, NaN and zeros are returned as they are. *)
Definition Math_floor (x : Number) : Number :=
  match x with
  | S754_finite s m e => ofZ (floorZ s m e)
  | _ => x
  end.

Definition is_finite (x : Number) : bool :=
  match x with
  | S754_zero _ | S754_finite _ _ _ => true
  | _ => false
  end.

(** The sign bit of [x] is [s], unless [x] is NaN. *)
Definition signIs (s : bool) (x : Number) : Prop :=
  match x with
  | S754_zero s' | S754_infinity s' | S754_finite s' _ _ => s' = s
  | S754_nan => True
  end.

End JS.

(* ===================================================================== *)
(** ** Promises: outcomes and the [async] monad

    An [async] function run against the store either fulfils with a value or
    rejects; the source has no [try]/[catch], so a rejected [await] rejects
    the enclosing function at once.  The store is threaded explicitly so that
    writes, if any, would be visible. *)

(** The source defines no error class of its own; a rejection is whatever a
    collaborator rejects with.  The constructors name the kinds of failure a
    collaborator can signal. *)
Inductive Rejection : Type :=
| NotFoundError
| ValidationError
| DependencyFailure.

Inductive Outcome (A : Type) : Type :=
| Fulfilled (a : A)
| Rejected (e : Rejection).

Arguments Fulfilled {A} a.
Arguments Rejected {A} e.

Definition Async (DB A : Type) : Type := DB -> Outcome A * DB.

Definition ret {DB A} (a : A) : Async DB A := fun db => (Fulfilled a, db).

Definition bind {DB A B} (c : Async DB A) (k : A -> Async DB B) : Async DB B :=
  fun db =>
    match c db with
    | (Fulfilled a, db') => k a db'
    | (Rejected e, db') => (Rejected e, db')
    end.

Notation "'await' x <- c ;; k" := (bind c (fun x => k))
  (at level 61, x name, c at next level, right associativity).

(** [for (const x of xs) { body }] where the body updates a local variable
    of type [S] (here the [alerts] array). *)
Fixpoint forOf {DB A S} (xs : list A) (body : A -> S -> Async DB S) (s : S)
  : Async DB S :=
  match xs with
  | [] => ret s
  | x :: xs' => await s' <- body x s ;; forOf xs' body s'
  end.

(* ===================================================================== *)
(** ** Entities *)

Module Warehouse.
Record t := mk { id : Z; company_id : Z; name : string }.
End Warehouse.

Module Product.
Record t := mk { id : Z; name : string; sku : string; product_type : string }.
End Product.

Module Inventory.
(** A row of [Inventory.findAll({ ..., include: [Product] })]: the inventory
    columns with the joined product under [Product].  The join follows the
    foreign key [inventory.product_id], so every row carries its product. *)
Record t := mk { warehouse_id : Z; quantity : Z; Product : Product.t }.
End Inventory.

Module Supplier.
Record t := mk { id : Z; name : string; contact_email : string }.
End Supplier.

Module Alert.
(** The object literal pushed at alerts.service.js:44-54; [None] is the
    JS [null]. *)
Record t := mk {
  product_id : Z;
  product_name : string;
  sku : string;
  warehouse_id : Z;
  warehouse_name : string;
  current_stock : Z;
  threshold : Z;
  days_until_stockout : option JS.Number;
  supplier : option Supplier.t
}.
End Alert.

Module Response.
(** The body passed to [res.json] by the controller. *)
Record t := mk { alerts : list Alert.t; total_alerts : Z }.
End Response.

Module Request.
(** [req.params.companyId], read as the INT it is compared with. *)
Record t := mk { params_companyId : Z }.
End Request.

(* ===================================================================== *)
(** ** The service and the controller *)

(** What the service calls without defining it: the two Sequelize queries
    and the four helpers.  [getThresholdByProductType] is called
    synchronously, the others are awaited. *)
Class DataAccess (DB : Type) : Type := {
  (** [Warehouse.findAll({ where: { company_id } })] *)
  Warehouse_findAll : Z -> Async DB (list Warehouse.t);
  (** [Inventory.findAll({ where: { warehouse_id }, include: [Product] })] *)
  Inventory_findAll : Z -> Async DB (list Inventory.t);
  getThresholdByProductType : string -> Z;
  hasRecentSalesActivity : Z -> Z -> Async DB bool;
  getAverageDailySales : Z -> Z -> Async DB JS.Number;
  getSupplierForProduct : Z -> Async DB (option Supplier.t)
}.

Section Service.

Context {DB : Type} {access : DataAccess DB}.

(** alerts.service.js:38-39 *)
Definition daysUntilStockout (quantity : Z) (avgDailySales : JS.Number)
  : option JS.Number :=
  if JS.gt avgDailySales JS.zero
  then Some (JS.Math_floor (JS.div (JS.ofZ quantity) avgDailySales))
  else None.

(** alerts.service.js:44-54 *)
Definition mkAlert (warehouse : Warehouse.t) (item : Inventory.t)
           (threshold : Z) (daysUntilStockout : option JS.Number)
           (supplier : option Supplier.t) : Alert.t :=
  let product := Inventory.Product item in
  {| Alert.product_id := Product.id product;
     Alert.product_name := Product.name product;
     Alert.sku := Product.sku product;
     Alert.warehouse_id := Warehouse.id warehouse;
     Alert.warehouse_name := Warehouse.name warehouse;
     Alert.current_stock := Inventory.quantity item;
     Alert.threshold := threshold;
     Alert.days_until_stockout := daysUntilStockout;
     Alert.supplier := supplier |}.

(** Body of the inner loop, alerts.service.js:16-55; [continue] leaves
    [alerts] as it is, [alerts.push] appends. *)
Definition itemBody (warehouse : Warehouse.t) (item : Inventory.t)
           (alerts : list Alert.t) : Async DB (list Alert.t) :=
  let product := Inventory.Product item in
  let threshold := getThresholdByProductType (Product.product_type product) in
  if Inventory.quantity item >=? threshold then ret alerts
  else
    await hasRecentSales <-
      hasRecentSalesActivity (Product.id product) (Warehouse.id warehouse) ;;
    if negb hasRecentSales then ret alerts
    else
      await avgDailySales <-
        getAverageDailySales (Product.id product) (Warehouse.id warehouse) ;;
      let days := daysUntilStockout (Inventory.quantity item) avgDailySales in
      await supplier <- getSupplierForProduct (Product.id product) ;;
      ret (alerts ++ [mkAlert warehouse item threshold days supplier]).

(** Body of the outer loop, alerts.service.js:9-56. *)
Definition warehouseBody (warehouse : Warehouse.t) (alerts : list Alert.t)
  : Async DB (list Alert.t) :=
  await inventories <- Inventory_findAll (Warehouse.id warehouse) ;;
  forOf inventories (itemBody warehouse) alerts.

(** alerts.service.js:1-59 *)
Definition fetchLowStockAlerts (companyId : Z) : Async DB (list Alert.t) :=
  await warehouses <- Warehouse_findAll companyId ;;
  await alerts <- forOf warehouses warehouseBody [] ;;
  ret alerts.

(** alerts.controller.js: the value handed to [res.json]. *)
Definition getLowStockAlerts (req : Request.t) : Async DB Response.t :=
  let companyId := Request.params_companyId req in
  await alerts <- fetchLowStockAlerts companyId ;;
  ret {| Response.alerts := alerts;
         Response.total_alerts := Z.of_nat (List.length alerts) |}.

End Service.

Arguments daysUntilStockout quantity avgDailySales : simpl never.

(* ===================================================================== *)
(** ** Pure readings used to state the properties *)

(** A collaborator call is a query when it leaves the store as it found it. *)
Definition query {DB A} (c : Async DB A) : Prop := forall db, snd (c db) = db.

(** First rejection wins, otherwise the pieces are concatenated in order:
    what a [forOf] loop appends when each iteration appends [f x]. *)
Fixpoint gather {A B} (f : A -> Outcome (list B)) (xs : list A)
  : Outcome (list B) :=
  match xs with
  | [] => Fulfilled []
  | x :: xs' =>
      match f x with
      | Rejected e => Rejected e
      | Fulfilled l =>
          match gather f xs' with
          | Rejected e => Rejected e
          | Fulfilled ls => Fulfilled (l ++ ls)
          end
      end
  end.

(** Appending an outcome to the accumulated [alerts]. *)
Definition pushAll {B} (acc : list B) (o : Outcome (list B)) : Outcome (list B) :=
  match o with
  | Fulfilled l => Fulfilled (acc ++ l)
  | Rejected e => Rejected e
  end.

(** The value of a fulfilled outcome, [[]] for a rejected one. *)
Definition fulfilledOr {B} (o : Outcome (list B)) : list B :=
  match o with
  | Fulfilled l => l
  | Rejected _ => []
  end.

(** The pair of identifiers an alert is about. *)
Definition alertKey (a : Alert.t) : Z * Z :=
  (Alert.warehouse_id a, Alert.product_id a).


(* ===================================================================== *)
(** ** A relational store behind the collaborators

    The tables of part-2_database_design that the endpoint reads, with the
    two Sequelize queries of the service evaluated over them: [findAll] with
    a [where] clause and no [order] returns the matching rows as the table
    yields them, and an empty array when no row matches; it does not look at
    the table the foreign key points to. *)

Module SalesRecord.
Record t := mk { product_id : Z; warehouse_id : Z; quantity_sold : Z; sold_at : Z }.
End SalesRecord.

Module Store.
Record t := mk {
  companies : list Z;
  warehouses : list Warehouse.t;
  inventory : list Inventory.t;
  sales : list SalesRecord.t;
  suppliers : list Supplier.t;
  product_suppliers : list (Z * Z);
  (** evaluation time, in milliseconds *)
  now : Z
}.
End Store.

Module Relational.

(** [Warehouse.findAll({ where: { company_id } })] over the warehouses table. *)
Definition Warehouse_findAll (company_id : Z) : Async Store.t (list Warehouse.t) :=
  fun db =>
    (Fulfilled (filter (fun w => Warehouse.company_id w =? company_id)
                       (Store.warehouses db)), db).

(** [Inventory.findAll({ where: { warehouse_id }, include: [Product] })] over
    the inventory table joined with its products. *)
Definition Inventory_findAll (warehouse_id : Z) : Async Store.t (list Inventory.t) :=
  fun db =>
    (Fulfilled (filter (fun i => Inventory.warehouse_id i =? warehouse_id)
                       (Store.inventory db)), db).

(** Thirty days, in milliseconds. *)
Definition window : Z := 30 * 86400000.

(** A sale of the pair inside the trailing window: not older than
    [now - 30 days], not dated after [now]. *)
Definition qualifyingSale (db : Store.t) (productId warehouseId : Z)
           (s : SalesRecord.t) : bool :=
  (SalesRecord.product_id s =? productId)
  && (SalesRecord.warehouse_id s =? warehouseId)
  && (Store.now db - window <=? SalesRecord.sold_at s)
  && (SalesRecord.sold_at s <=? Store.now db).

(** Modelled from the spec: [salesActivity], the total quantity sold by the
    pair in the trailing window, 0 if none (section 6). *)
Definition salesActivity (db : Store.t) (productId warehouseId : Z) : Z :=
  fold_right (fun s acc => SalesRecord.quantity_sold s + acc) 0
             (filter (qualifyingSale db productId warehouseId) (Store.sales db)).

(** Modelled from the spec: [hasRecentSalesActivity] is missing from the
    sources; the recency gate of section 4.1 asks for at least one sale of
    the product in that warehouse within the trailing 30-day window. *)
Definition hasRecentSalesActivity (productId warehouseId : Z)
  : Async Store.t bool :=
  fun db =>
    (Fulfilled (existsb (qualifyingSale db productId warehouseId)
                        (Store.sales db)), db).

(** Modelled from the spec: [getAverageDailySales] is missing from the
    sources; section 4.1 computes the average over the same window as
    [total_quantity_sold / 30]. *)
Definition getAverageDailySales (productId warehouseId : Z)
  : Async Store.t JS.Number :=
  fun db =>
    (Fulfilled (JS.div (JS.ofZ (salesActivity db productId warehouseId))
                       (JS.ofZ 30)), db).

(** The suppliers associated with a product through [product_suppliers]. *)
Definition suppliersForProduct (db : Store.t) (productId : Z) : list Supplier.t :=
  filter (fun s => existsb (fun ps => (fst ps =? productId)
                                      && (snd ps =? Supplier.id s))
                           (Store.product_suppliers db))
         (Store.suppliers db).

Definition lowestId (s : Supplier.t) (best : option Supplier.t) : option Supplier.t :=
  match best with
  | None => Some s
  | Some b => if Supplier.id s <=? Supplier.id b then Some s else Some b
  end.

(** Modelled from the spec: [getSupplierForProduct] is missing from the
    sources; section 4.1 picks the supplier with the lowest id and yields
    [null] when the product has none. *)
Definition getSupplierForProduct (productId : Z)
  : Async Store.t (option Supplier.t) :=
  fun db => (Fulfilled (fold_right lowestId None (suppliersForProduct db productId)), db).

(** Modelled from the spec: [getThresholdByProductType] is missing from the
    sources; section 4.1 gives the policy table [simple -> 20],
    [bundle -> 10] and a default for any other type. *)
Definition thresholdPolicy (default : Z) (product_type : string) : Z :=
  if String.eqb product_type "simple" then 20
  else if String.eqb product_type "bundle" then 10
  else default.

(** The data-access layer over the relational store; the threshold policy
    stays a parameter. *)
Definition access (getThresholdByProductType : string -> Z) : DataAccess Store.t :=
  Build_DataAccess Store.t Warehouse_findAll Inventory_findAll
    getThresholdByProductType hasRecentSalesActivity getAverageDailySales
    getSupplierForProduct.

(** The service and the controller over the relational store. *)
Definition fetchLowStockAlerts (getThresholdByProductType : string -> Z)
  : Z -> Async Store.t (list Alert.t) :=
  @fetchLowStockAlerts Store.t (access getThresholdByProductType).

Definition getLowStockAlerts (getThresholdByProductType : string -> Z)
  : Request.t -> Async Store.t Response.t :=
  @getLowStockAlerts Store.t (access getThresholdByProductType).

End Relational.

(** All five asynchronous collaborators of the service are queries. *)
Definition queriesOnly {DB} (access : DataAccess DB) : Prop :=
  (forall c, query (Warehouse_findAll c))
  /\ (forall w, query (Inventory_findAll w))
  /\ (forall p w, query (hasRecentSalesActivity p w))
  /\ (forall p w, query (getAverageDailySales p w))
  /\ (forall p, query (getSupplierForProduct p)).

(** Iteration [(warehouse, item)] read at store [db] pushes alert [a]: both
    gates pass, the two remaining lookups fulfil, and [a] is the object
    built from their results. *)
Definition emitted {DB} {access : DataAccess DB}
           (db : DB) (w : Warehouse.t) (item : Inventory.t) (a : Alert.t) : Prop :=
  let p := Product.id (Inventory.Product item) in
  let threshold :=
    getThresholdByProductType (Product.product_type (Inventory.Product item)) in
  Inventory.quantity item < threshold
  /\ fst (hasRecentSalesActivity p (Warehouse.id w) db) = Fulfilled true
  /\ exists avg sup,
      fst (getAverageDailySales p (Warehouse.id w) db) = Fulfilled avg
      /\ fst (getSupplierForProduct p db) = Fulfilled sup
      /\ a = mkAlert w item threshold
                     (daysUntilStockout (Inventory.quantity item) avg) sup.

(** The inventory rows resolved for a warehouse at store [db] ([[]] when
    the lookup rejects). *)
Definition inventoryOf {DB} {access : DataAccess DB}
           (db : DB) (w : Warehouse.t) : list Inventory.t :=
  fulfilledOr (fst (Inventory_findAll (Warehouse.id w) db)).

(** What iteration [(warehouse, item)] pushes when started at store [db]. *)
Definition pushedBy {DB} {access : DataAccess DB}
           (db : DB) (w : Warehouse.t) (item : Inventory.t) : list Alert.t :=
  fulfilledOr (fst (itemBody w item [] db)).

(* ===================================================================== *)
(** ** Sample data *)

Module Sample.

Definition day : Z := 86400000.

Definition mainWarehouse := Warehouse.mk 10 1 "Main Warehouse".
Definition eastWarehouse := Warehouse.mk 11 1 "East Warehouse".

Definition widgetA := Product.mk 123 "Widget A" "WID-001" "simple".
Definition widgetB := Product.mk 124 "Widget B" "WID-002" "simple".
Definition widgetC := Product.mk 125 "Widget C" "WID-003" "simple".
Definition starterKit := Product.mk 200 "Starter Kit" "KIT-001" "bundle".

Definition supplierCorp := Supplier.mk 789 "Supplier Corp" "orders@supplier.com".
Definition backupSupply := Supplier.mk 790 "Backup Supply" "sales@backup.example".

(** Company 1 owns two warehouses; company 2 exists and owns none; no other
    company is known.  In the main warehouse widget B (no supplier) is stored
    before widget A, and widget C sits exactly at its threshold; the starter
    kit in the east warehouse is out of stock but its only sales are older
    than thirty days or dated in the future. *)
Definition store : Store.t :=
  {| Store.companies := [1; 2];
     Store.warehouses := [mainWarehouse; eastWarehouse];
     Store.inventory :=
       [ Inventory.mk 10 5 widgetB;
         Inventory.mk 10 5 widgetA;
         Inventory.mk 10 20 widgetC;
         Inventory.mk 11 3 widgetA;
         Inventory.mk 11 0 starterKit ];
     Store.sales :=
       [ SalesRecord.mk 123 10 4 (399 * day);
         SalesRecord.mk 123 10 6 (371 * day);
         SalesRecord.mk 124 10 1 (398 * day);
         SalesRecord.mk 125 10 9 (397 * day);
         SalesRecord.mk 123 11 30 (390 * day);
         SalesRecord.mk 200 11 5 (369 * day);
         SalesRecord.mk 200 11 7 (401 * day) ];
     Store.suppliers := [backupSupply; supplierCorp];
     Store.product_suppliers := [(123, 790); (123, 789)];
     Store.now := 400 * day |}.

Definition policy : string -> Z := Relational.thresholdPolicy 15.

(** The three alerts company 1 gets from [store] under [policy], in the
    order the service pushes them. *)
Definition widgetB_main_alert : Alert.t :=
  Alert.mk 124 "Widget B" "WID-002" 10 "Main Warehouse" 5 20
           (Some (JS.ofZ 150)) None.

Definition widgetA_main_alert : Alert.t :=
  Alert.mk 123 "Widget A" "WID-001" 10 "Main Warehouse" 5 20
           (Some (JS.ofZ 15)) (Some supplierCorp).

Definition widgetA_east_alert : Alert.t :=
  Alert.mk 123 "Widget A" "WID-001" 11 "East Warehouse" 3 20
           (Some (JS.ofZ 3)) (Some supplierCorp).

Definition alerts : list Alert.t :=
  [widgetB_main_alert; widgetA_main_alert; widgetA_east_alert].

End Sample.

(** Collaborators of which one lookup rejects for product 123 and every other
    call fulfils; the store is a single point. *)
Module Flaky.

Definition reject {A} (e : Rejection) : Async unit A := fun db => (Rejected e, db).

Definition Warehouse_findAll (company_id : Z) : Async unit (list Warehouse.t) :=
  ret [Sample.mainWarehouse].

Definition warehouseLookupDown (company_id : Z) : Async unit (list Warehouse.t) :=
  reject NotFoundError.

Definition Inventory_findAll (warehouse_id : Z) : Async unit (list Inventory.t) :=
  ret [Inventory.mk 10 5 Sample.widgetA; Inventory.mk 10 5 Sample.widgetB].

Definition hasRecentSalesActivity (productId warehouseId : Z) : Async unit bool :=
  ret true.

Definition salesLookupDown (productId warehouseId : Z) : Async unit bool :=
  if productId =? 123 then reject DependencyFailure else ret true.

Definition getAverageDailySales (productId warehouseId : Z) : Async unit JS.Number :=
  ret (JS.ofZ 1).

Definition getSupplierForProduct (productId : Z) : Async unit (option Supplier.t) :=
  ret (Some Sample.supplierCorp).

Definition supplierLookupDown (productId : Z) : Async unit (option Supplier.t) :=
  if productId =? 123 then reject DependencyFailure
  else ret (Some Sample.supplierCorp).

(** Everything fulfils except the supplier lookup for product 123. *)
Definition supplierDown : DataAccess unit :=
  Build_DataAccess unit Warehouse_findAll Inventory_findAll Sample.policy
    hasRecentSalesActivity getAverageDailySales supplierLookupDown.

(** Everything fulfils except the sales-activity lookup for product 123. *)
Definition salesDown : DataAccess unit :=
  Build_DataAccess unit Warehouse_findAll Inventory_findAll Sample.policy
    salesLookupDown getAverageDailySales getSupplierForProduct.

(** The warehouse lookup rejects. *)
Definition warehouseDown : DataAccess unit :=
  Build_DataAccess unit warehouseLookupDown Inventory_findAll Sample.policy
    hasRecentSalesActivity getAverageDailySales getSupplierForProduct.

End Flaky.

(* ===================================================================== *)
(** ** Collaborators that record the lookups they answer *)

Module Traced.

(** One awaited call of the service. *)
Inductive Call : Type :=
| FindWarehouses (company_id : Z)
| FindInventory (warehouse_id : Z)
| RecentSales (productId warehouseId : Z)
| AverageSales (productId warehouseId : Z)
| SupplierFor (productId : Z).

(** What each lookup answers; none of them fails. *)
Record Answers := mk {
  warehouses : Z -> list Warehouse.t;
  inventories : Z -> list Inventory.t;
  threshold : string -> Z;
  recentSales : Z -> Z -> bool;
  averageSales : Z -> Z -> JS.Number;
  supplier : Z -> option Supplier.t
}.

(** Answer [a] and append the call to the log, which is the store. *)
Definition logged {A} (c : Call) (a : A) : Async (list Call) A :=
  fun log => (Fulfilled a, log ++ [c]).

Definition access (ans : Answers) : DataAccess (list Call) :=
  Build_DataAccess (list Call)
    (fun c => logged (FindWarehouses c) (warehouses ans c))
    (fun w => logged (FindInventory w) (inventories ans w))
    (threshold ans)
    (fun p w => logged (RecentSales p w) (recentSales ans p w))
    (fun p w => logged (AverageSales p w) (averageSales ans p w))
    (fun p => logged (SupplierFor p) (supplier ans p)).

Definition isFindWarehouses (c : Call) : bool :=
  match c with FindWarehouses _ => true | _ => false end.
Definition isFindInventory (c : Call) : bool :=
  match c with FindInventory _ => true | _ => false end.
Definition isRecentSales (c : Call) : bool :=
  match c with RecentSales _ _ => true | _ => false end.
Definition isAverageSales (c : Call) : bool :=
  match c with AverageSales _ _ => true | _ => false end.
Definition isSupplierFor (c : Call) : bool :=
  match c with SupplierFor _ => true | _ => false end.

(** Number of calls of one kind in a log. *)
Definition count (kind : Call -> bool) (calls : list Call) : nat :=
  List.length (filter kind calls).

(** The inventory rows of all warehouses answered for a company. *)
Definition rows (ans : Answers) (companyId : Z) : list Inventory.t :=
  flat_map (fun w => inventories ans (Warehouse.id w)) (warehouses ans companyId).

Definition belowThreshold (ans : Answers) (item : Inventory.t) : bool :=
  Inventory.quantity item
  <? threshold ans (Product.product_type (Inventory.Product item)).

(** The calls one iteration of the inner loop makes, in order. *)
Definition itemCalls (ans : Answers) (w : Warehouse.t) (item : Inventory.t)
  : list Call :=
  let p := Product.id (Inventory.Product item) in
  if belowThreshold ans item
  then RecentSales p (Warehouse.id w)
       :: (if recentSales ans p (Warehouse.id w)
           then [AverageSales p (Warehouse.id w); SupplierFor p]
           else [])
  else [].

(** The alert one iteration of the inner loop pushes, if any. *)
Definition itemAlerts (ans : Answers) (w : Warehouse.t) (item : Inventory.t)
  : list Alert.t :=
  let p := Product.id (Inventory.Product item) in
  if belowThreshold ans item && recentSales ans p (Warehouse.id w)
  then [mkAlert w item
          (threshold ans (Product.product_type (Inventory.Product item)))
          (daysUntilStockout (Inventory.quantity item)
                             (averageSales ans p (Warehouse.id w)))
          (supplier ans p)]
  else [].

(** All the calls of one request, in order, and all its alerts. *)
Definition allCalls (ans : Answers) (companyId : Z) : list Call :=
  FindWarehouses companyId
  :: flat_map (fun w => FindInventory (Warehouse.id w)
                        :: flat_map (itemCalls ans w)
                                    (inventories ans (Warehouse.id w)))
              (warehouses ans companyId).

Definition allAlerts (ans : Answers) (companyId : Z) : list Alert.t :=
  flat_map (fun w => flat_map (itemAlerts ans w)
                              (inventories ans (Warehouse.id w)))
           (warehouses ans companyId).

End Traced.

(** Collaborators whose rows all fail a gate: widget C sits at its threshold
    and widget B has no recent sales.  The sales lookup would reject for
    widget C, and the average-sales and supplier lookups reject always. *)
Module Gated.

Definition Inventory_findAll (warehouse_id : Z) : Async unit (list Inventory.t) :=
  ret [Inventory.mk 10 20 Sample.widgetC; Inventory.mk 10 5 Sample.widgetB].

Definition hasRecentSalesActivity (productId warehouseId : Z) : Async unit bool :=
  if productId =? 125 then Flaky.reject DependencyFailure else ret false.

Definition getAverageDailySales (productId warehouseId : Z) : Async unit JS.Number :=
  Flaky.reject DependencyFailure.

Definition getSupplierForProduct (productId : Z) : Async unit (option Supplier.t) :=
  Flaky.reject DependencyFailure.

Definition access : DataAccess unit :=
  Build_DataAccess unit Flaky.Warehouse_findAll Inventory_findAll Sample.policy
    hasRecentSalesActivity getAverageDailySales getSupplierForProduct.

End Gated.

(** Logging collaborators over the main warehouse with two rows below
    threshold; the supplier lookup for product 123 is logged and rejects. *)
Module TracedDown.

Definition failing {A} (c : Traced.Call) (e : Rejection)
  : Async (list Traced.Call) A :=
  fun log => (Rejected e, log ++ [c]).

Definition access : DataAccess (list Traced.Call) :=
  Build_DataAccess (list Traced.Call)
    (fun c => Traced.logged (Traced.FindWarehouses c) [Sample.mainWarehouse])
    (fun w => Traced.logged (Traced.FindInventory w)
                [Inventory.mk 10 5 Sample.widgetA; Inventory.mk 10 5 Sample.widgetB])
    Sample.policy
    (fun p w => Traced.logged (Traced.RecentSales p w) true)
    (fun p w => Traced.logged (Traced.AverageSales p w) (JS.ofZ 1))
    (fun p => if p =? 123
              then failing (Traced.SupplierFor p) DependencyFailure
              else Traced.logged (Traced.SupplierFor p) (Some Sample.supplierCorp)).

End TracedDown.

(** Stores derived from the sample store. *)
Module Variants.


(** The same inventory rows, with widget A stored before widget B. *)
Definition reordered : Store.t :=
  {| Store.companies := Store.companies Sample.store;
     Store.warehouses := Store.warehouses Sample.store;
     Store.inventory :=
       [ Inventory.mk 10 5 Sample.widgetA;
         Inventory.mk 10 5 Sample.widgetB;
         Inventory.mk 10 20 Sample.widgetC;
         Inventory.mk 11 3 Sample.widgetA;
         Inventory.mk 11 0 Sample.starterKit ];
     Store.sales := Store.sales Sample.store;
     Store.suppliers := Store.suppliers Sample.store;
     Store.product_suppliers := Store.product_suppliers Sample.store;
     Store.now := Store.now Sample.store |}.

(** The same tables read two days later. *)
Definition twoDaysLater : Store.t :=
  {| Store.companies := Store.companies Sample.store;
     Store.warehouses := Store.warehouses Sample.store;
     Store.inventory := Store.inventory Sample.store;
     Store.sales := Store.sales Sample.store;
     Store.suppliers := Store.suppliers Sample.store;
     Store.product_suppliers := Store.product_suppliers Sample.store;
     Store.now := 402 * Sample.day |}.

(** One warehouse whose only row is oversold: a quantity of -3 for widget A,
    of which 30 units were sold yesterday. *)
Definition oversold : Store.t :=
  {| Store.companies := [1];
     Store.warehouses := [Sample.mainWarehouse];
     Store.inventory := [Inventory.mk 10 (-3) Sample.widgetA];
     Store.sales := [SalesRecord.mk 123 10 30 (399 * Sample.day)];
     Store.suppliers := [Sample.supplierCorp];
     Store.product_suppliers := [(123, 789)];
     Store.now := 400 * Sample.day |}.

Definition oversold_alert : Alert.t :=
  Alert.mk 123 "Widget A" "WID-001" 10 "Main Warehouse" (-3) 20
           (Some (JS.ofZ (-3))) (Some Sample.supplierCorp).

End Variants.


(* ===================================================================== *)
(** * Properties *)

(** ** Running the monad *)

Lemma query_run {DB A} (c : Async DB A) (db : DB) :
  query c -> c db = (fst (c db), db).
Proof.
  intros Hq. specialize (Hq db). destruct (c db) as [o db']. simpl in *. now subst.
Qed.

Lemma bind_query {DB A B} (c : Async DB A) (k : A -> Async DB B) (db : DB) :
  query c ->
  bind c k db = match fst (c db) with
                | Fulfilled a => k a db
                | Rejected e => (Rejected e, db)
                end.
Proof.
  intros Hq. unfold bind. rewrite (query_run c db Hq). simpl.
  now destruct (fst (c db)).
Qed.

(** ** Binary64 arithmetic of the stockout estimate *)

Lemma binary_round_aux_sign s m e l :
  JS.signIs s (binary_round_aux JS.prec JS.emax s m e l).
Proof.
  unfold binary_round_aux.
  destruct (shr_fexp JS.prec JS.emax m e l) as [mrs' e'].
  destruct (shr_fexp JS.prec JS.emax _ e' loc_Exact) as [mrs'' e''].
  destruct (shr_m mrs''); simpl; trivial.
  destruct (Z.leb e'' _); simpl; trivial.
Qed.

Lemma ofZ_sign q : 0 <= q -> JS.signIs false (JS.ofZ q).
Proof.
  intros Hq. unfold JS.ofZ, binary_normalize.
  destruct q as [|m|m]; [reflexivity | | lia].
  unfold binary_round.
  destruct (shl_align m 0 _) as [mz ez]. apply binary_round_aux_sign.
Qed.

Lemma gt_zero_cases y :
  JS.gt y JS.zero = true ->
  y = S754_infinity false \/ exists m e, y = S754_finite false m e.
Proof.
  destruct y as [s|s| |s m e]; simpl; try discriminate;
    destruct s; simpl; try discriminate; eauto.
Qed.

Lemma div_sign x y :
  JS.signIs false x -> JS.gt y JS.zero = true -> JS.signIs false (JS.div x y).
Proof.
  intros Hx Hy. destruct (gt_zero_cases y Hy) as [->|(m & e & ->)];
    destruct x as [sx|sx| |sx mx ex]; simpl in *; subst; trivial.
  destruct (SFdiv_core_binary _ _ _ _ _ _) as [[mz ez] lz].
  apply binary_round_aux_sign.
Qed.

Lemma Math_floor_nonneg_integer x :
  JS.is_finite x = true -> JS.signIs false x ->
  exists n, 0 <= n /\ JS.Math_floor x = JS.ofZ n.
Proof.
  destruct x as [s|s| |s m e]; simpl; try discriminate; intros _ ->.
  - exists 0. split; [lia|reflexivity].
  - exists (JS.floorZ false m e). split; [|reflexivity].
    unfold JS.floorZ. simpl. apply Z.shiftl_nonneg. lia.
Qed.

Lemma ge_zero_gt_or_eq avg :
  JS.ge avg JS.zero = true ->
  (JS.gt avg JS.zero = false <-> JS.eqb avg JS.zero = true).
Proof.
  destruct avg as [[|]|[|]| |[|] m e]; cbv; try discriminate;
    intros _; split; congruence.
Qed.

Lemma daysUntilStockout_null q avg :
  daysUntilStockout q avg = None <-> JS.gt avg JS.zero = false.
Proof.
  unfold daysUntilStockout. destruct (JS.gt avg JS.zero); split; congruence.
Qed.

Lemma daysUntilStockout_floor q avg :
  JS.gt avg JS.zero = true ->
  daysUntilStockout q avg
  = Some (JS.Math_floor (JS.div (JS.ofZ q) avg)).
Proof. unfold daysUntilStockout. now intros ->. Qed.

(** ** [gather] *)

Lemma gather_flat_map {A B} (f : A -> Outcome (list B)) xs out :
  gather f xs = Fulfilled out ->
  out = flat_map (fun x => fulfilledOr (f x)) xs.
Proof.
  revert out. induction xs as [|x xs IH]; simpl; intros out H.
  - now inversion H.
  - destruct (f x) as [l|e]; [|discriminate].
    destruct (gather f xs) as [ls|e]; [|discriminate].
    inversion H; subst. simpl. f_equal. now apply IH.
Qed.

Lemma gather_each_fulfilled {A B} (f : A -> Outcome (list B)) xs out :
  gather f xs = Fulfilled out ->
  forall x, In x xs -> exists l, f x = Fulfilled l.
Proof.
  revert out. induction xs as [|x xs IH]; simpl; intros out H y Hy; [easy|].
  destruct (f x) as [l|e] eqn:Ex; [|discriminate].
  destruct (gather f xs) as [ls|e]; [|discriminate].
  destruct Hy as [<-|Hy]; eauto.
Qed.

Lemma gather_total {A B} (f : A -> Outcome (list B)) xs :
  (forall x, In x xs -> exists l, f x = Fulfilled l) ->
  gather f xs = Fulfilled (flat_map (fun x => fulfilledOr (f x)) xs).
Proof.
  induction xs as [|x xs IH]; simpl; intros H; [reflexivity|].
  destruct (H x (or_introl eq_refl)) as [l El]. rewrite El. simpl.
  rewrite IH; auto.
Qed.

Lemma flat_map_agree {A B} (f g : A -> list B) xs :
  (forall x, In x xs -> f x = g x) -> flat_map f xs = flat_map g xs.
Proof.
  induction xs as [|x xs IH]; simpl; intros H; [reflexivity|].
  rewrite (H x (or_introl eq_refl)), IH; auto.
Qed.

(** A loop whose iterations are queries appending [f x] appends
    [gather f xs] and is itself a query. *)
Lemma forOf_gather {DB A B} (body : A -> list B -> Async DB (list B))
      (f : A -> Outcome (list B)) (db : DB) :
  (forall x acc, body x acc db = (pushAll acc (f x), db)) ->
  forall xs acc, forOf xs body acc db = (pushAll acc (gather f xs), db).
Proof.
  intros Hbody. induction xs as [|x xs IH]; intros acc; simpl.
  - unfold ret. now rewrite app_nil_r.
  - unfold bind. rewrite Hbody. destruct (f x) as [l|e]; simpl; [|reflexivity].
    rewrite IH. destruct (gather f xs) as [ls|e]; simpl; [|reflexivity].
    now rewrite app_assoc.
Qed.

(** A property of the accumulator kept by every fulfilled iteration is kept
    by the loop, whatever the iterations do to the store. *)
Lemma forOf_preserves {DB A S} (P : S -> Prop) (body : A -> S -> Async DB S) :
  (forall x s db s' db', P s -> body x s db = (Fulfilled s', db') -> P s') ->
  forall xs s db s' db',
    P s -> forOf xs body s db = (Fulfilled s', db') -> P s'.
Proof.
  intros Hbody. induction xs as [|x xs IH]; simpl; intros s db s' db' Hs H.
  - unfold ret in H. now inversion H; subst.
  - unfold bind in H. destruct (body x s db) as [[s1|e] db1] eqn:E; [|discriminate].
    eapply IH; [|exact H]. eapply Hbody; eauto.
Qed.

(** ** The service run against query collaborators *)

Section ServiceFacts.

Context {DB : Type} {access : DataAccess DB}.

Local Abbreviation thresholdOf item :=
  (getThresholdByProductType (Product.product_type (Inventory.Product item))).

Hypothesis RO : queriesOnly access.

Lemma itemBody_run w item acc db :
  itemBody w item acc db = (pushAll acc (fst (itemBody w item [] db)), db).
Proof.
  destruct RO as (_ & _ & Hs & Ha & Hp).
  unfold itemBody.
  destruct (Inventory.quantity item >=? thresholdOf item).
  { unfold ret. simpl. now rewrite app_nil_r. }
  rewrite !(bind_query _ _ db (Hs _ _)).
  destruct (fst (hasRecentSalesActivity _ _ db)) as [[|]|e]; simpl;
    [| unfold ret; simpl; now rewrite app_nil_r | reflexivity].
  rewrite !(bind_query _ _ db (Ha _ _)).
  destruct (fst (getAverageDailySales _ _ db)) as [avg|e]; simpl; [|reflexivity].
  rewrite !(bind_query _ _ db (Hp _)).
  destruct (fst (getSupplierForProduct _ db)) as [s|e]; simpl; reflexivity.
Qed.

Lemma warehouseBody_run w acc db :
  warehouseBody w acc db
  = (pushAll acc
       match fst (Inventory_findAll (Warehouse.id w) db) with
       | Fulfilled items => gather (fun item => fst (itemBody w item [] db)) items
       | Rejected e => Rejected e
       end, db).
Proof.
  destruct RO as (_ & Hi & _).
  unfold warehouseBody. rewrite (bind_query _ _ db (Hi _)).
  destruct (fst (Inventory_findAll _ db)) as [items|e]; simpl; [|reflexivity].
  apply forOf_gather. intros x a. apply itemBody_run.
Qed.

(** What one warehouse contributes, read at store [db]. *)
Lemma warehouseBody_reading w db :
  fst (warehouseBody w [] db)
  = match fst (Inventory_findAll (Warehouse.id w) db) with
    | Fulfilled items => gather (fun item => fst (itemBody w item [] db)) items
    | Rejected e => Rejected e
    end.
Proof.
  rewrite warehouseBody_run. simpl.
  destruct (fst (Inventory_findAll _ db)) as [items|e]; [|reflexivity].
  now destruct (gather _ items).
Qed.

Lemma fetch_run companyId db :
  fetchLowStockAlerts companyId db
  = (match fst (Warehouse_findAll companyId db) with
     | Fulfilled ws => gather (fun w => fst (warehouseBody w [] db)) ws
     | Rejected e => Rejected e
     end, db).
Proof.
  pose proof RO as (Hw & _).
  unfold fetchLowStockAlerts. rewrite (bind_query _ _ db (Hw _)).
  destruct (fst (Warehouse_findAll _ db)) as [ws|e]; [|reflexivity].
  unfold bind.
  rewrite (forOf_gather _ (fun w => fst (warehouseBody w [] db)) db).
  - simpl. destruct (gather _ ws); reflexivity.
  - intros w acc. rewrite warehouseBody_reading. apply warehouseBody_run.
Qed.

(** One iteration, read at store [db], case by case. *)
Lemma itemBody_reading w item db :
  fst (itemBody w item [] db)
  = let p := Product.id (Inventory.Product item) in
    if Inventory.quantity item >=? thresholdOf item then Fulfilled []
    else match fst (hasRecentSalesActivity p (Warehouse.id w) db) with
         | Rejected e => Rejected e
         | Fulfilled false => Fulfilled []
         | Fulfilled true =>
             match fst (getAverageDailySales p (Warehouse.id w) db) with
             | Rejected e => Rejected e
             | Fulfilled avg =>
                 match fst (getSupplierForProduct p db) with
                 | Rejected e => Rejected e
                 | Fulfilled sup =>
                     Fulfilled [mkAlert w item (thresholdOf item)
                                  (daysUntilStockout (Inventory.quantity item) avg)
                                  sup]
                 end
             end
         end.
Proof.
  destruct RO as (_ & _ & Hs & Ha & Hp).
  unfold itemBody. cbv zeta.
  destruct (Inventory.quantity item >=? thresholdOf item); [reflexivity|].
  rewrite (bind_query _ _ db (Hs _ _)).
  destruct (fst (hasRecentSalesActivity _ _ db)) as [[|]|e]; simpl; try reflexivity.
  rewrite (bind_query _ _ db (Ha _ _)).
  destruct (fst (getAverageDailySales _ _ db)) as [avg|e]; simpl; try reflexivity.
  rewrite (bind_query _ _ db (Hp _)).
  destruct (fst (getSupplierForProduct _ db)) as [s|e]; simpl; reflexivity.
Qed.

Lemma itemBody_emitted w item db l :
  fst (itemBody w item [] db) = Fulfilled l ->
  forall a, In a l <->
            emitted db w item a.
Proof.
  rewrite itemBody_reading. cbv zeta. unfold emitted. intros H a.
  destruct (Z.geb_spec (Inventory.quantity item) (thresholdOf item)) as [Hge|Hlt].
  { inversion H; subst. simpl. split; [easy|]. intros (Hq & _). lia. }
  destruct (fst (hasRecentSalesActivity _ _ db)) as [[|]|e]; try discriminate.
  - destruct (fst (getAverageDailySales _ _ db)) as [avg|e]; try discriminate.
    destruct (fst (getSupplierForProduct _ db)) as [s|e]; try discriminate.
    inversion H; subst. simpl. split.
    + intros [<-|[]]. split; [lia|]. split; [reflexivity|]. now exists avg, s.
    + intros (_ & _ & avg' & s' & E1 & E2 & ->). left. congruence.
  - inversion H; subst. simpl. split; [easy|]. intros (_ & E & _). discriminate.
Qed.

(** The shape of a fulfilled run: the store is untouched, every lookup met
    on the way fulfilled, and the alerts are the per-iteration pushes in
    visiting order. *)
Lemma fetch_fulfilled companyId db alerts db' :
  fetchLowStockAlerts companyId db = (Fulfilled alerts, db') ->
  db' = db
  /\ exists ws,
      fst (Warehouse_findAll companyId db) = Fulfilled ws
      /\ (forall w, In w ws ->
            exists items,
              fst (Inventory_findAll (Warehouse.id w) db) = Fulfilled items
              /\ forall item, In item items ->
                    exists l, fst (itemBody w item [] db) = Fulfilled l)
      /\ alerts
         = flat_map
             (fun w =>
                flat_map (fun item => fulfilledOr (fst (itemBody w item [] db)))
                         (fulfilledOr (fst (Inventory_findAll (Warehouse.id w) db))))
             ws.
Proof.
  rewrite fetch_run. intros H.
  destruct (fst (Warehouse_findAll companyId db)) as [ws|e] eqn:Ews;
    [|discriminate].
  injection H as Ho Hdb. split; [now symmetry|].
  exists ws. split; [reflexivity|].
  pose proof (gather_each_fulfilled _ _ _ Ho) as Hall.
  pose proof (gather_flat_map _ _ _ Ho) as Hshape.
  assert (Hw : forall w, In w ws ->
            exists items,
              fst (Inventory_findAll (Warehouse.id w) db) = Fulfilled items
              /\ fst (warehouseBody w [] db)
                 = gather (fun item => fst (itemBody w item [] db)) items).
  { intros w Hin. destruct (Hall w Hin) as [l Hl].
    rewrite warehouseBody_reading in Hl |- *.
    destruct (fst (Inventory_findAll _ db)) as [items|e]; [|discriminate].
    now exists items. }
  split.
  - intros w Hin. destruct (Hw w Hin) as (items & Ei & Eb).
    exists items. split; [assumption|].
    destruct (Hall w Hin) as [l Hl]. rewrite Eb in Hl.
    apply (gather_each_fulfilled _ _ _ Hl).
  - rewrite Hshape. apply flat_map_agree. intros w Hin.
    destruct (Hw w Hin) as (items & Ei & Eb).
    destruct (Hall w Hin) as [l Hl]. rewrite Hl. simpl.
    rewrite Ei. simpl. rewrite Eb in Hl. apply (gather_flat_map _ _ _ Hl).
Qed.

(** Which alerts a fulfilled run holds. *)
Lemma fetch_alert_iff companyId db alerts db' :
  fetchLowStockAlerts companyId db = (Fulfilled alerts, db') ->
  forall a,
    In a alerts <->
    exists ws w items item,
      fst (Warehouse_findAll companyId db) = Fulfilled ws /\ In w ws
      /\ fst (Inventory_findAll (Warehouse.id w) db) = Fulfilled items
      /\ In item items
      /\ emitted db w item a.
Proof.
  intros H a. destruct (fetch_fulfilled _ _ _ _ H) as (_ & ws & Ews & Hall & ->).
  rewrite in_flat_map. split.
  - intros (w & Hw & Hin). destruct (Hall w Hw) as (items & Ei & Hitems).
    rewrite Ei in Hin. simpl in Hin. apply in_flat_map in Hin.
    destruct Hin as (item & Hitem & Hin).
    destruct (Hitems item Hitem) as [l El]. rewrite El in Hin. simpl in Hin.
    exists ws, w, items, item. do 4 (split; [assumption|]).
    now apply (itemBody_emitted _ _ _ _ El).
  - intros (ws' & w & items & item & Ews' & Hw & Ei & Hitem & Hem).
    assert (ws' = ws) by congruence. subst ws'.
    exists w. split; [assumption|]. rewrite Ei. simpl. apply in_flat_map.
    exists item. split; [assumption|].
    destruct (Hall w Hw) as (items' & Ei' & Hitems).
    assert (items' = items) by congruence. subst items'.
    destruct (Hitems item Hitem) as [l El]. rewrite El. simpl.
    now apply (itemBody_emitted _ _ _ _ El).
Qed.

(** *** Properties of the service for arbitrary collaborators *)

Lemma itemBody_fulfilled_cases w item acc db out db' :
  itemBody w item acc db = (Fulfilled out, db') ->
  out = acc
  \/ (Inventory.quantity item < thresholdOf item
      /\ exists days sup, out = acc ++ [mkAlert w item (thresholdOf item) days sup]).
Proof.
  unfold itemBody, bind, ret.
  destruct (Z.geb_spec (Inventory.quantity item) (thresholdOf item)) as [Hge|Hlt].
  { intros H. inversion H. now left. }
  destruct (hasRecentSalesActivity _ _ db) as [[[|]|e] db1]; simpl;
    try discriminate.
  - destruct (getAverageDailySales _ _ db1) as [[avg|e] db2]; try discriminate.
    destruct (getSupplierForProduct _ db2) as [[sup|e] db3]; try discriminate.
    intros H. inversion H. right. split; [lia|]. eauto.
  - intros H. inversion H. now left.
Qed.

(** C4.  The stock gate is strict.  An inventory row whose quantity equals
    the threshold resolved for its product type is skipped by the loop body:
    the alerts are left as they were and no lookup is made.  Accordingly every
    alert of a fulfilled run has a current stock strictly below its
    threshold, never equal to it. *)
Theorem C4_quantity_equal_to_threshold_gives_no_alert :
  (forall w item alerts db,
      Inventory.quantity item = thresholdOf item ->
      itemBody w item alerts db = (Fulfilled alerts, db))
  /\ (forall companyId db alerts db',
        fetchLowStockAlerts companyId db = (Fulfilled alerts, db') ->
        forall a, In a alerts ->
                  Alert.current_stock a < Alert.threshold a
                  /\ Alert.current_stock a <> Alert.threshold a).
Proof.
  split.
  - intros w item alerts db Heq. unfold itemBody.
    replace (Inventory.quantity item >=? thresholdOf item) with true
      by (symmetry; apply Z.geb_le; lia).
    reflexivity.
  - intros companyId db alerts db' H.
    set (P := fun l : list Alert.t =>
                forall a, In a l -> Alert.current_stock a < Alert.threshold a).
    assert (HP : P alerts).
    { unfold fetchLowStockAlerts, bind in H.
      destruct (Warehouse_findAll companyId db) as [[ws|e] db1]; [|discriminate].
      destruct (forOf ws _ [] db1) as [[out|e] db2] eqn:Eloop; [|discriminate].
      unfold ret in H. inversion H; subst out db2. clear H.
      eapply (forOf_preserves P); [| |exact Eloop]; [|intros a []].
      intros w acc d acc' d' Hacc Hw. unfold warehouseBody, bind in Hw.
      destruct (Inventory_findAll _ d) as [[items|e] d1]; [|discriminate].
      eapply (forOf_preserves P); [|exact Hacc|exact Hw].
      intros item l d2 l' d2' Hl Hi.
      destruct (itemBody_fulfilled_cases _ _ _ _ _ _ Hi)
        as [->|(Hlt & days & sup & ->)]; [assumption|].
      intros a Ha. apply in_app_or in Ha. destruct Ha as [Ha|[<-|[]]]; auto. }
    intros a Ha. specialize (HP a Ha). split; lia.
Qed.

(** C9.  Whenever the controller responds, [total_alerts] is the length of
    the [alerts] array of the same response, which is the array the service
    returned. *)
Theorem C9_total_alerts_is_number_of_alerts :
  forall req db resp db',
    getLowStockAlerts req db = (Fulfilled resp, db') ->
    Response.total_alerts resp = Z.of_nat (List.length (Response.alerts resp))
    /\ fetchLowStockAlerts (Request.params_companyId req) db
       = (Fulfilled (Response.alerts resp), db').
Proof.
  intros req db resp db' H. unfold getLowStockAlerts, bind, ret in H.
  destruct (fetchLowStockAlerts (Request.params_companyId req) db) as [[alerts|e] db1];
    [|discriminate].
  inversion H; subst. simpl. split; reflexivity.
Qed.

(** C1 (as amended).  The service makes no company lookup and raises no
    [NotFoundError] of its own.  Whenever the warehouse lookup resolves the
    empty set for the company identifier, the request succeeds with
    [{alerts: [], total_alerts: 0}]; whenever the warehouse lookup itself
    rejects, the request is rejected with that very rejection. *)
Theorem C1_empty_warehouse_set_gives_zero_alerts :
  forall companyId db db',
    (Warehouse_findAll companyId db = (Fulfilled [], db') ->
     getLowStockAlerts (Request.mk companyId) db
     = (Fulfilled {| Response.alerts := []; Response.total_alerts := 0 |}, db'))
    /\ (forall e,
          Warehouse_findAll companyId db = (Rejected e, db') ->
          getLowStockAlerts (Request.mk companyId) db = (Rejected e, db')).
Proof.
  intros companyId db db'.
  split; [intros H | intros e H];
    unfold getLowStockAlerts, fetchLowStockAlerts, bind; simpl; now rewrite H.
Qed.

(** C10.  The service only reads.  When its collaborators are queries, the
    store after [fetchLowStockAlerts], and after the controller, is the store
    before it, whether the request is fulfilled or rejected. *)
Theorem C10_fetch_leaves_the_store_unchanged :
  forall companyId db,
    snd (fetchLowStockAlerts companyId db) = db
    /\ snd (getLowStockAlerts (Request.mk companyId) db) = db.
Proof.
  intros companyId db. split.
  - now rewrite fetch_run.
  - unfold getLowStockAlerts, bind. simpl. rewrite fetch_run.
    destruct (fst (Warehouse_findAll companyId db)) as [ws|e]; [|reflexivity].
    now destruct (gather _ ws).
Qed.

(** With query collaborators: a rejected warehouse lookup rejects the
    request with the same rejection; a rejected inventory lookup of one of
    the company's warehouses rejects the request; and for any inventory row
    that passes the stock gate, a rejected sales-activity lookup, or (once
    recent sales are reported) a rejected average-sales or supplier lookup,
    rejects the request. *)
Lemma failed_lookup_rejects_the_request :
  forall companyId db,
    (forall e, fst (Warehouse_findAll companyId db) = Rejected e ->
               fst (fetchLowStockAlerts companyId db) = Rejected e)
    /\ (forall ws w,
          fst (Warehouse_findAll companyId db) = Fulfilled ws -> In w ws ->
          (forall e,
              fst (Inventory_findAll (Warehouse.id w) db) = Rejected e ->
              exists e', fst (fetchLowStockAlerts companyId db) = Rejected e')
          /\ (forall items item e,
                fst (Inventory_findAll (Warehouse.id w) db) = Fulfilled items ->
                In item items ->
                Inventory.quantity item < thresholdOf item ->
                let p := Product.id (Inventory.Product item) in
                fst (hasRecentSalesActivity p (Warehouse.id w) db) = Rejected e
                \/ (fst (hasRecentSalesActivity p (Warehouse.id w) db)
                    = Fulfilled true
                    /\ (fst (getAverageDailySales p (Warehouse.id w) db)
                        = Rejected e
                        \/ fst (getSupplierForProduct p db) = Rejected e)) ->
                exists e', fst (fetchLowStockAlerts companyId db) = Rejected e')).
Proof.
  intros companyId db. split.
  { intros e He. rewrite fetch_run. simpl. now rewrite He. }
  intros ws w Hws Hw.
  assert (Hful : forall alerts, fst (fetchLowStockAlerts companyId db) = Fulfilled alerts ->
            exists items,
              fst (Inventory_findAll (Warehouse.id w) db) = Fulfilled items
              /\ forall item, In item items ->
                    exists l, fst (itemBody w item [] db) = Fulfilled l).
  { intros alerts Hf.
    destruct (fetch_fulfilled companyId db alerts (snd (fetchLowStockAlerts companyId db)))
      as (_ & ws' & Hws' & Hall & _).
    { rewrite <- Hf. now destruct (fetchLowStockAlerts companyId db). }
    assert (ws' = ws) by congruence. subst ws'. now apply Hall. }
  split.
  - intros e He. destruct (fst (fetchLowStockAlerts companyId db)) as [alerts|e'] eqn:Hf; eauto.
    destruct (Hful alerts eq_refl) as (items & Hi & _). congruence.
  - intros items item e Hitems Hitem Hlt p Hfail.
    destruct (fst (fetchLowStockAlerts companyId db)) as [alerts|e'] eqn:Hf; eauto.
    exfalso. destruct (Hful alerts eq_refl) as (items' & Hi & Hall).
    assert (items' = items) by congruence. subst items'.
    destruct (Hall item Hitem) as [l Hl].
    rewrite itemBody_reading in Hl. cbv zeta in Hl. fold p in Hl.
    destruct (Z.geb_spec (Inventory.quantity item) (thresholdOf item));
      [lia|].
    destruct Hfail as [Hs|(Hs & [Ha|Hp])]; rewrite Hs in Hl; try discriminate.
    + rewrite Ha in Hl. discriminate.
    + destruct (fst (getAverageDailySales p (Warehouse.id w) db)); [|discriminate].
      rewrite Hp in Hl. discriminate.
Qed.

Lemma pushedBy_cases db w item :
  let pushed := pushedBy db w item in
  forall a, In a pushed ->
            pushed = [a]
            /\ alertKey a = (Warehouse.id w, Product.id (Inventory.Product item)).
Proof.
  unfold pushedBy. rewrite itemBody_reading. cbv zeta.
  destruct (Inventory.quantity item >=? thresholdOf item);
    [intros a Ha; contradiction|].
  destruct (fst (hasRecentSalesActivity _ _ db)) as [[|]|e];
    [| intros a Ha; contradiction ..].
  destruct (fst (getAverageDailySales _ _ db)) as [avg|e];
    [| intros a Ha; contradiction].
  destruct (fst (getSupplierForProduct _ db)) as [sup|e];
    [| intros a Ha; contradiction].
  simpl. intros a [<-|Ha]; [|contradiction]. split; reflexivity.
Qed.

(** The estimate of an alert of a fulfilled run, with [avg] the average
    daily sales the lookup returns for the alert's product and warehouse:
    [null] exactly when [avg > 0] fails, which for a non-negative average is
    exactly when the average is zero; otherwise
    [Math.floor(current_stock / avg)], a non-negative integer whenever the
    current stock is non-negative and the quotient is a finite number. *)
Lemma days_until_stockout_of_an_alert :
  (forall companyId db alerts db' a,
    fetchLowStockAlerts companyId db = (Fulfilled alerts, db') ->
    In a alerts ->
    exists avg,
      fst (getAverageDailySales (Alert.product_id a) (Alert.warehouse_id a) db)
      = Fulfilled avg
      /\ (Alert.days_until_stockout a = None <-> JS.gt avg JS.zero = false)
      /\ (JS.ge avg JS.zero = true ->
          (Alert.days_until_stockout a = None <-> JS.eqb avg JS.zero = true))
      /\ (JS.gt avg JS.zero = true ->
          let quotient := JS.div (JS.ofZ (Alert.current_stock a)) avg in
          Alert.days_until_stockout a = Some (JS.Math_floor quotient)
          /\ (0 <= Alert.current_stock a ->
              JS.is_finite quotient = true ->
              exists n, 0 <= n /\ Alert.days_until_stockout a = Some (JS.ofZ n))))
  /\ daysUntilStockout 5 (JS.div (JS.ofZ 10) (JS.ofZ 30)) = Some (JS.ofZ 15).
Proof.
  split; [|vm_compute; reflexivity].
  intros companyId db alerts db' a H Ha.
  apply (fetch_alert_iff _ _ _ _ H) in Ha.
  destruct Ha as (ws & w & items & item & _ & _ & _ & _ & Hem).
  destruct Hem as (_ & _ & avg & sup & Havg & _ & ->). simpl.
  exists avg. split; [assumption|].
  split; [apply daysUntilStockout_null|].
  split.
  - intros Hge. rewrite daysUntilStockout_null. now apply ge_zero_gt_or_eq.
  - intros Hgt. rewrite (daysUntilStockout_floor _ _ Hgt).
    split; [reflexivity|]. intros Hq Hfin.
    destruct (Math_floor_nonneg_integer _ Hfin) as (n & Hn & En).
    + apply div_sign; [now apply ofZ_sign | assumption].
    + exists n. split; [assumption|]. now rewrite En.
Qed.


End ServiceFacts.

(* ===================================================================== *)
(** ** The service over the relational store *)

Lemma Relational_queriesOnly thr : queriesOnly (Relational.access thr).
Proof. repeat split. Qed.

Lemma qualifyingSale_true db p w s :
  Relational.qualifyingSale db p w s = true <->
  SalesRecord.product_id s = p /\ SalesRecord.warehouse_id s = w
  /\ Store.now db - Relational.window <= SalesRecord.sold_at s <= Store.now db.
Proof.
  unfold Relational.qualifyingSale.
  rewrite !andb_true_iff, !Z.eqb_eq, !Z.leb_le. tauto.
Qed.

Lemma recentSales_true db p w :
  existsb (Relational.qualifyingSale db p w) (Store.sales db) = true <->
  exists s, In s (Store.sales db)
            /\ SalesRecord.product_id s = p /\ SalesRecord.warehouse_id s = w
            /\ Store.now db - Relational.window <= SalesRecord.sold_at s
               <= Store.now db.
Proof.
  rewrite existsb_exists. split; intros (s & Hin & Hs); exists s;
    (split; [assumption|]); now apply qualifyingSale_true.
Qed.

(** Over the relational store no lookup rejects, so the service always
    fulfils, and leaves the store as it was. *)
Lemma Relational_fetch_fulfils thr companyId db :
  exists alerts,
    Relational.fetchLowStockAlerts thr companyId db = (Fulfilled alerts, db).
Proof.
  unfold Relational.fetchLowStockAlerts.
  rewrite (fetch_run (Relational_queriesOnly thr)).
  cbn [fst Warehouse_findAll Relational.access Relational.Warehouse_findAll].
  rewrite gather_total; [eauto|].
  intros w _. rewrite (warehouseBody_reading (Relational_queriesOnly thr)).
  cbn [fst Inventory_findAll Relational.access Relational.Inventory_findAll].
  rewrite gather_total; [eauto|].
  intros item _. rewrite (itemBody_reading (Relational_queriesOnly thr)).
  cbv zeta. destruct (_ >=? _); [eauto|].
  cbn [fst Relational.access hasRecentSalesActivity getAverageDailySales
       getSupplierForProduct Relational.hasRecentSalesActivity
       Relational.getAverageDailySales Relational.getSupplierForProduct].
  destruct (existsb _ _); eauto.
Qed.

(** The alerts of a run over the relational store. *)
Lemma Relational_alert_iff thr companyId db alerts db' :
  Relational.fetchLowStockAlerts thr companyId db = (Fulfilled alerts, db') ->
  forall a,
    In a alerts <->
    exists wh item,
      In wh (Store.warehouses db) /\ Warehouse.company_id wh = companyId
      /\ In item (Store.inventory db)
      /\ Inventory.warehouse_id item = Warehouse.id wh
      /\ Inventory.quantity item
         < thr (Product.product_type (Inventory.Product item))
      /\ existsb (Relational.qualifyingSale db
                    (Product.id (Inventory.Product item)) (Warehouse.id wh))
                 (Store.sales db) = true
      /\ a = mkAlert wh item
                     (thr (Product.product_type (Inventory.Product item)))
                     (daysUntilStockout
                        (Inventory.quantity item)
                        (JS.div (JS.ofZ (Relational.salesActivity db
                                           (Product.id (Inventory.Product item))
                                           (Warehouse.id wh)))
                                (JS.ofZ 30)))
                     (fold_right Relational.lowestId None
                        (Relational.suppliersForProduct db
                           (Product.id (Inventory.Product item)))).
Proof.
  intros H a. unfold Relational.fetchLowStockAlerts in H.
  rewrite (fetch_alert_iff (Relational_queriesOnly thr) _ _ _ _ H).
  unfold emitted.
  cbn [fst Relational.access Warehouse_findAll Inventory_findAll
       getThresholdByProductType hasRecentSalesActivity getAverageDailySales
       getSupplierForProduct Relational.Warehouse_findAll
       Relational.Inventory_findAll Relational.hasRecentSalesActivity
       Relational.getAverageDailySales Relational.getSupplierForProduct].
  split.
  - intros (ws & wh & items & item & Ews & Hwh & Ei & Hitem & Hq & Es
            & avg & sup & Ea & Ep & ->).
    injection Ews as <-. injection Ei as <-. injection Es as Es.
    injection Ea as <-. injection Ep as <-.
    apply filter_In in Hwh. destruct Hwh as [Hwh Hc]. apply Z.eqb_eq in Hc.
    apply filter_In in Hitem. destruct Hitem as [Hitem Hw]. apply Z.eqb_eq in Hw.
    exists wh, item. repeat (split; [assumption|]). reflexivity.
  - intros (wh & item & Hwh & Hc & Hitem & Hw & Hq & Es & ->).
    eexists _, wh, _, item.
    split; [reflexivity|]. split; [apply filter_In; split; [assumption|now apply Z.eqb_eq]|].
    split; [reflexivity|]. split; [apply filter_In; split; [assumption|now apply Z.eqb_eq]|].
    split; [assumption|]. split; [now rewrite Es|].
    eexists _, _. repeat split.
Qed.


(** C3.  Over the relational store the service fulfils, leaves the store as
    it was, and its alerts are exactly the gated pairs: there is an alert
    for product [p] in warehouse [w] if and only if some inventory row of
    that pair has a quantity strictly below the threshold of its product
    type, the pair has a sale dated within the thirty days ending now, and
    [w] is a warehouse of the requested company.  The alerts exist in the
    returned array only; nothing about them is kept in the store. *)
Theorem C3_alert_iff_all_three_gates :
  forall thr db companyId,
  exists alerts,
    Relational.fetchLowStockAlerts thr companyId db = (Fulfilled alerts, db)
    /\ forall p w,
        (exists a, In a alerts
                   /\ Alert.product_id a = p /\ Alert.warehouse_id a = w)
        <->
        (exists wh item,
            (In item (Store.inventory db)
             /\ Inventory.warehouse_id item = w
             /\ Product.id (Inventory.Product item) = p
             /\ Inventory.quantity item
                < thr (Product.product_type (Inventory.Product item)))
            /\ (exists s,
                   In s (Store.sales db)
                   /\ SalesRecord.product_id s = p
                   /\ SalesRecord.warehouse_id s = w
                   /\ Store.now db - Relational.window
                      <= SalesRecord.sold_at s <= Store.now db)
            /\ (In wh (Store.warehouses db)
                /\ Warehouse.id wh = w
                /\ Warehouse.company_id wh = companyId)).
Proof.
  intros thr db companyId.
  destruct (Relational_fetch_fulfils thr companyId db) as [alerts H].
  exists alerts. split; [assumption|]. intros p w. split.
  - intros (a & Ha & <- & <-).
    apply (Relational_alert_iff _ _ _ _ _ H) in Ha.
    destruct Ha as (wh & item & Hwh & Hc & Hitem & Hw & Hq & Hs & ->).
    exists wh, item. simpl. split; [auto|].
    split; [now apply recentSales_true | auto].
  - intros (wh & item & (Hitem & Hw & Hp & Hq) & Hs & Hwh & Hid & Hc).
    subst p w. eexists. split.
    + apply (Relational_alert_iff _ _ _ _ _ H).
      exists wh, item. repeat (split; [now auto|]).
      split; [|reflexivity]. apply recentSales_true. now rewrite Hid.
    + simpl. auto.
Qed.

(** C5.  Over the relational store, a product and warehouse without a single
    sale dated within the thirty days ending now get no alert, whatever the
    stock of the pair, zero included. *)
Theorem C5_no_qualifying_sale_gives_no_alert :
  forall thr db companyId p w,
    filter (Relational.qualifyingSale db p w) (Store.sales db) = [] ->
    exists alerts,
      Relational.fetchLowStockAlerts thr companyId db = (Fulfilled alerts, db)
      /\ forall a, In a alerts ->
                   ~ (Alert.product_id a = p /\ Alert.warehouse_id a = w).
Proof.
  intros thr db companyId p w Hnone.
  destruct (Relational_fetch_fulfils thr companyId db) as [alerts H].
  exists alerts. split; [assumption|]. intros a Ha [Hp Hw].
  apply (Relational_alert_iff _ _ _ _ _ H) in Ha.
  destruct Ha as (wh & item & _ & _ & _ & _ & _ & Hs & ->).
  simpl in Hp, Hw. subst p w.
  apply existsb_exists in Hs. destruct Hs as (s & Hin & Hs).
  assert (Hf : In s (filter (Relational.qualifyingSale db
                               (Product.id (Inventory.Product item))
                               (Warehouse.id wh)) (Store.sales db)))
    by (apply filter_In; auto).
  rewrite Hnone in Hf. contradiction.
Qed.

(** C7.  Over the relational store, an inventory row of one of the company's
    warehouses that passes the stock gate and the recency gate and whose
    product has no supplier still produces its alert: the request fulfils,
    and the alert carries the row's product, warehouse and stock with the
    [supplier] field present and [null]. *)
Theorem C7_product_without_supplier_alerts_with_null_supplier :
  forall thr db companyId wh item,
    In wh (Store.warehouses db) ->
    Warehouse.company_id wh = companyId ->
    In item (Store.inventory db) ->
    Inventory.warehouse_id item = Warehouse.id wh ->
    Inventory.quantity item < thr (Product.product_type (Inventory.Product item)) ->
    (exists s, In s (Store.sales db)
               /\ Relational.qualifyingSale db
                    (Product.id (Inventory.Product item)) (Warehouse.id wh) s
                  = true) ->
    Relational.suppliersForProduct db (Product.id (Inventory.Product item)) = [] ->
    exists alerts a,
      Relational.fetchLowStockAlerts thr companyId db = (Fulfilled alerts, db)
      /\ In a alerts
      /\ Alert.product_id a = Product.id (Inventory.Product item)
      /\ Alert.warehouse_id a = Warehouse.id wh
      /\ Alert.current_stock a = Inventory.quantity item
      /\ Alert.supplier a = None.
Proof.
  intros thr db companyId wh item Hwh Hc Hitem Hw Hq Hs Hnone.
  destruct (Relational_fetch_fulfils thr companyId db) as [alerts H].
  exists alerts. eexists. split; [exact H|]. split.
  - apply (Relational_alert_iff _ _ _ _ _ H).
    exists wh, item. repeat (split; [assumption|]).
    split; [now apply existsb_exists | reflexivity].
  - rewrite Hnone. simpl. repeat split.
Qed.

(* ===================================================================== *)
(** ** The properties on the sample data *)

(** The sample run: company 1 gets the three alerts of [Sample.alerts]. *)
Example sample_run :
  Relational.fetchLowStockAlerts Sample.policy 1 Sample.store
  = (Fulfilled Sample.alerts, Sample.store).
Proof. vm_compute. reflexivity. Qed.

(** In binary64 the quotient is rounded before the floor is taken: 23 units
    in stock with 23 sold in the window give 29 days, not 30. *)
Example daysUntilStockout_rounds_like_binary64 :
  daysUntilStockout 23 (JS.div (JS.ofZ 23) (JS.ofZ 30)) = Some (JS.ofZ 29).
Proof. vm_compute. reflexivity. Qed.

(** C1, counterexample.  Company 42 is not a known company, no warehouse row bears its id, and
    the request is answered with an empty list of alerts: nothing rejects
    with [NotFoundError]. *)
Lemma C1_unknown_company_gets_zero_alerts :
  ~ In 42 (Store.companies Sample.store)
  /\ Relational.getLowStockAlerts Sample.policy (Request.mk 42) Sample.store
     = (Fulfilled {| Response.alerts := []; Response.total_alerts := 0 |},
        Sample.store)
  /\ fst (Relational.getLowStockAlerts Sample.policy (Request.mk 42) Sample.store)
     <> Rejected NotFoundError.
Proof.
  split; [|split].
  - simpl. intros [H|[H|[]]]; discriminate.
  - vm_compute. reflexivity.
  - vm_compute. discriminate.
Qed.

Lemma C1_empty_warehouse_set_witness :
  Relational.getLowStockAlerts Sample.policy (Request.mk 2) Sample.store
  = (Fulfilled {| Response.alerts := []; Response.total_alerts := 0 |},
     Sample.store)
  /\ @getLowStockAlerts unit Flaky.warehouseDown (Request.mk 2) tt
     = (Rejected NotFoundError, tt).
Proof.
  split.
  - apply (@C1_empty_warehouse_set_gives_zero_alerts
             Store.t (Relational.access Sample.policy) 2 Sample.store Sample.store).
    reflexivity.
  - apply (@C1_empty_warehouse_set_gives_zero_alerts
             unit Flaky.warehouseDown 2 tt tt).
    reflexivity.
Defined.

(** C2, counterexample.  With the supplier lookup rejecting for product 123
    only, and likewise with the sales-activity lookup rejecting for product
    123 only, the whole request is rejected: the failing row is neither
    degraded nor skipped, and the other row of the warehouse, which taken
    alone produces its alert, is never reached. *)
Lemma C2_one_failed_lookup_rejects_the_whole_request :
  (fst (@fetchLowStockAlerts unit Flaky.supplierDown 1 tt)
   = Rejected DependencyFailure
   /\ exists a,
       fst (@itemBody unit Flaky.supplierDown Sample.mainWarehouse
                      (Inventory.mk 10 5 Sample.widgetB) [] tt)
       = Fulfilled [a])
  /\ (fst (@fetchLowStockAlerts unit Flaky.salesDown 1 tt)
      = Rejected DependencyFailure
      /\ exists a,
          fst (@itemBody unit Flaky.salesDown Sample.mainWarehouse
                         (Inventory.mk 10 5 Sample.widgetB) [] tt)
          = Fulfilled [a]).
Proof.
  split; (split; [vm_compute; reflexivity | eexists; vm_compute; reflexivity]).
Qed.

Lemma C4_threshold_boundary_witness :
  @itemBody Store.t (Relational.access Sample.policy)
            Sample.mainWarehouse (Inventory.mk 10 20 Sample.widgetC) []
            Sample.store
  = (Fulfilled [], Sample.store)
  /\ (forall a, In a Sample.alerts ->
                Alert.current_stock a < Alert.threshold a
                /\ Alert.current_stock a <> Alert.threshold a).
Proof.
  destruct (@C4_quantity_equal_to_threshold_gives_no_alert
              Store.t (Relational.access Sample.policy))
    as [Hbody Hrun].
  split.
  - apply Hbody. reflexivity.
  - apply (Hrun 1 Sample.store Sample.alerts Sample.store).
    vm_compute. reflexivity.
Defined.

Lemma C5_out_of_stock_without_recent_sales_witness :
  In (Inventory.mk 11 0 Sample.starterKit) (Store.inventory Sample.store)
  /\ exists alerts,
      Relational.fetchLowStockAlerts Sample.policy 1 Sample.store
      = (Fulfilled alerts, Sample.store)
      /\ forall a, In a alerts ->
                   ~ (Alert.product_id a = 200 /\ Alert.warehouse_id a = 11).
Proof.
  split; [simpl; tauto|].
  apply (C5_no_qualifying_sale_gives_no_alert Sample.policy Sample.store 1 200 11).
  vm_compute. reflexivity.
Defined.

Lemma C7_widgetB_without_supplier_witness :
  exists alerts a,
    Relational.fetchLowStockAlerts Sample.policy 1 Sample.store
    = (Fulfilled alerts, Sample.store)
    /\ In a alerts
    /\ Alert.product_id a = 124
    /\ Alert.warehouse_id a = 10
    /\ Alert.current_stock a = 5
    /\ Alert.supplier a = None.
Proof.
  apply (C7_product_without_supplier_alerts_with_null_supplier
           Sample.policy Sample.store 1 Sample.mainWarehouse
           (Inventory.mk 10 5 Sample.widgetB)).
  - simpl. auto.
  - reflexivity.
  - simpl. auto.
  - reflexivity.
  - reflexivity.
  - exists (SalesRecord.mk 124 10 1 (398 * Sample.day)).
    split; [simpl; auto | reflexivity].
  - reflexivity.
Defined.


Lemma C9_total_alerts_witness :
  Response.total_alerts (Response.mk Sample.alerts 3)
  = Z.of_nat (List.length (Response.alerts (Response.mk Sample.alerts 3)))
  /\ Relational.fetchLowStockAlerts Sample.policy 1 Sample.store
     = (Fulfilled (Response.alerts (Response.mk Sample.alerts 3)), Sample.store).
Proof.
  apply (@C9_total_alerts_is_number_of_alerts
           Store.t (Relational.access Sample.policy)
           (Request.mk 1) Sample.store (Response.mk Sample.alerts 3) Sample.store).
  vm_compute. reflexivity.
Defined.

Lemma C10_store_unchanged_witness :
  snd (Relational.fetchLowStockAlerts Sample.policy 1 Sample.store) = Sample.store
  /\ snd (Relational.getLowStockAlerts Sample.policy (Request.mk 1) Sample.store)
     = Sample.store.
Proof.
  apply (@C10_fetch_leaves_the_store_unchanged
           Store.t (Relational.access Sample.policy)).
  repeat split.
Defined.

(* ===================================================================== *)
(** * Further properties of the service *)

(** ** Lists and loops *)

Lemma gather_all_nil {A B} (f : A -> Outcome (list B)) xs :
  (forall x, In x xs -> f x = Fulfilled []) -> gather f xs = Fulfilled [].
Proof.
  induction xs as [|x xs IH]; simpl; intros H; [reflexivity|].
  rewrite (H x (or_introl eq_refl)), IH; auto.
Qed.

Lemma gather_first_rejection {A B} (f : A -> Outcome (list B)) pre x post e :
  (forall y, In y pre -> exists l, f y = Fulfilled l) ->
  f x = Rejected e ->
  gather f (pre ++ x :: post) = Rejected e.
Proof.
  intros Hpre Hx. induction pre as [|y pre IH]; simpl.
  - now rewrite Hx.
  - destruct (Hpre y (or_introl eq_refl)) as [l ->].
    rewrite IH; [reflexivity|]. intros z Hz. apply Hpre. now right.
Qed.

Lemma length_flat_map_at_most_one {A B} (f : A -> list B) xs :
  (forall x, In x xs -> (List.length (f x) <= 1)%nat) ->
  (List.length (flat_map f xs) <= List.length xs)%nat.
Proof.
  induction xs as [|x xs IH]; simpl; intros H; [lia|].
  rewrite length_app.
  pose proof (H x (or_introl eq_refl)).
  assert (List.length (flat_map f xs) <= List.length xs)%nat by auto.
  lia.
Qed.

Lemma length_flat_map_le {A B C} (f : A -> list B) (g : A -> list C) xs :
  (forall x, In x xs -> (List.length (f x) <= List.length (g x))%nat) ->
  (List.length (flat_map f xs) <= List.length (flat_map g xs))%nat.
Proof.
  induction xs as [|x xs IH]; simpl; intros H; [lia|].
  rewrite !length_app.
  pose proof (H x (or_introl eq_refl)).
  assert (List.length (flat_map f xs) <= List.length (flat_map g xs))%nat by auto.
  lia.
Qed.

Section ServiceExtras.

Context {DB : Type} {access : DataAccess DB}.

Hypothesis RO : queriesOnly access.

(** X1.  Every alert of a fulfilled run is copied from one inventory row of
    one of the warehouses resolved for the company: product id, name and sku
    from the row's product, warehouse id and name from the warehouse, current
    stock from the row's quantity, threshold from the policy applied to the
    product's type, and supplier from the supplier lookup for that product. *)
Theorem X1_alert_fields_come_from_a_visited_row :
  forall companyId db alerts db' a,
    fetchLowStockAlerts companyId db = (Fulfilled alerts, db') ->
    In a alerts ->
    exists ws w items item,
      fst (Warehouse_findAll companyId db) = Fulfilled ws /\ In w ws
      /\ fst (Inventory_findAll (Warehouse.id w) db) = Fulfilled items
      /\ In item items
      /\ Alert.product_id a = Product.id (Inventory.Product item)
      /\ Alert.product_name a = Product.name (Inventory.Product item)
      /\ Alert.sku a = Product.sku (Inventory.Product item)
      /\ Alert.warehouse_id a = Warehouse.id w
      /\ Alert.warehouse_name a = Warehouse.name w
      /\ Alert.current_stock a = Inventory.quantity item
      /\ Alert.threshold a
         = getThresholdByProductType
             (Product.product_type (Inventory.Product item))
      /\ fst (getSupplierForProduct (Alert.product_id a) db)
         = Fulfilled (Alert.supplier a).
Proof.
  intros companyId db alerts db' a H Ha.
  apply (fetch_alert_iff RO _ _ _ _ H) in Ha.
  destruct Ha as (ws & w & items & item & Hws & Hw & Hi & Hitem & Hem).
  destruct Hem as (_ & _ & avg & sup & _ & Hsup & ->).
  exists ws, w, items, item. simpl. repeat (split; [solve [auto]|]). assumption.
Qed.

(** X2.  A fulfilled run returns at most one alert per inventory row it
    visited: the number of alerts is bounded by the number of rows of the
    warehouses resolved for the company. *)
Theorem X2_at_most_one_alert_per_visited_row :
  forall companyId db alerts db' ws,
    fetchLowStockAlerts companyId db = (Fulfilled alerts, db') ->
    fst (Warehouse_findAll companyId db) = Fulfilled ws ->
    (List.length alerts <= List.length (flat_map (inventoryOf db) ws))%nat.
Proof.
  intros companyId db alerts db' ws H Hws.
  destruct (fetch_fulfilled RO _ _ _ _ H) as (_ & ws' & Hws' & _ & ->).
  assert (ws' = ws) by congruence. subst ws'.
  apply length_flat_map_le. intros w _. unfold inventoryOf.
  apply length_flat_map_at_most_one. intros item _.
  pose proof (pushedBy_cases RO db w item) as Hcases.
  unfold pushedBy in Hcases. cbv zeta in Hcases.
  destruct (fulfilledOr (fst (itemBody w item [] db))) as [|a l]; simpl; [lia|].
  destruct (Hcases a (or_introl eq_refl)) as [Heq _].
  injection Heq as ->. simpl. lia.
Qed.

(** X3.  In a fulfilled run no row that passes both gates is left out: for
    every resolved warehouse and every row of it with a quantity below the
    threshold and recent sales reported, the average-sales and supplier
    lookups fulfilled and the alert built from the row and their results is
    among the alerts. *)
Theorem X3_every_gated_row_is_alerted :
  forall companyId db alerts db' ws w items item,
    fetchLowStockAlerts companyId db = (Fulfilled alerts, db') ->
    fst (Warehouse_findAll companyId db) = Fulfilled ws -> In w ws ->
    fst (Inventory_findAll (Warehouse.id w) db) = Fulfilled items ->
    In item items ->
    let p := Product.id (Inventory.Product item) in
    let threshold :=
      getThresholdByProductType (Product.product_type (Inventory.Product item)) in
    Inventory.quantity item < threshold ->
    fst (hasRecentSalesActivity p (Warehouse.id w) db) = Fulfilled true ->
    exists avg sup,
      fst (getAverageDailySales p (Warehouse.id w) db) = Fulfilled avg
      /\ fst (getSupplierForProduct p db) = Fulfilled sup
      /\ In (mkAlert w item threshold
                     (daysUntilStockout (Inventory.quantity item) avg) sup)
            alerts.
Proof.
  intros companyId db alerts db' ws w items item H Hws Hw Hi Hitem p threshold
         Hlt Hs.
  destruct (fetch_fulfilled RO _ _ _ _ H) as (_ & ws' & Hws' & Hall & _).
  assert (ws' = ws) by congruence. subst ws'.
  destruct (Hall w Hw) as (items' & Hi' & Hitems).
  assert (items' = items) by congruence. subst items'.
  destruct (Hitems item Hitem) as [l Hl].
  rewrite (itemBody_reading RO) in Hl. cbv zeta in Hl. fold p threshold in Hl.
  destruct (Z.geb_spec (Inventory.quantity item) threshold); [lia|].
  rewrite Hs in Hl.
  destruct (fst (getAverageDailySales p (Warehouse.id w) db)) as [avg|e] eqn:Ea;
    [|discriminate].
  destruct (fst (getSupplierForProduct p db)) as [sup|e] eqn:Ep; [|discriminate].
  exists avg, sup. split; [reflexivity|]. split; [reflexivity|].
  apply (fetch_alert_iff RO _ _ _ _ H).
  exists ws, w, items, item. do 4 (split; [assumption|]).
  unfold emitted. fold p threshold. split; [assumption|]. split; [assumption|].
  exists avg, sup. auto.
Qed.

(** X4.  Lookups are made only for rows that get that far.  If every row of
    every resolved warehouse is at or above its threshold or has no recent
    sales reported, the request fulfils with no alerts, whatever the lookups
    that were not reached would have answered, rejections included. *)
Theorem X4_rows_failing_a_gate_need_no_further_lookup :
  forall companyId db ws,
    fst (Warehouse_findAll companyId db) = Fulfilled ws ->
    (forall w, In w ws ->
       exists items,
         fst (Inventory_findAll (Warehouse.id w) db) = Fulfilled items
         /\ forall item, In item items ->
              getThresholdByProductType
                (Product.product_type (Inventory.Product item))
              <= Inventory.quantity item
              \/ fst (hasRecentSalesActivity
                        (Product.id (Inventory.Product item))
                        (Warehouse.id w) db)
                 = Fulfilled false) ->
    fetchLowStockAlerts companyId db = (Fulfilled [], db).
Proof.
  intros companyId db ws Hws Hrows.
  rewrite (fetch_run RO), Hws. f_equal.
  apply gather_all_nil. intros w Hw.
  destruct (Hrows w Hw) as (items & Hi & Hitems).
  rewrite (warehouseBody_reading RO), Hi.
  apply gather_all_nil. intros item Hitem.
  rewrite (itemBody_reading RO). cbv zeta.
  destruct (Z.geb_spec (Inventory.quantity item)
              (getThresholdByProductType
                 (Product.product_type (Inventory.Product item))))
    as [Hge|Hlt]; [reflexivity|].
  destruct (Hitems item Hitem) as [Hq|Hs]; [lia|]. now rewrite Hs.
Qed.

(** X5.  The request is rejected with the first rejection met in visiting
    order.  Within a warehouse, if the rows before some row all go through
    and that row's iteration rejects, the warehouse's iteration rejects with
    the same rejection; across warehouses, if the warehouses before some
    warehouse all go through and that warehouse's iteration rejects, the
    request is rejected with the same rejection. *)
Theorem X5_rejected_with_the_first_rejection :
  forall companyId db e,
    (forall w before item after,
        fst (Inventory_findAll (Warehouse.id w) db)
        = Fulfilled (before ++ item :: after) ->
        (forall i, In i before ->
                   exists l, fst (itemBody w i [] db) = Fulfilled l) ->
        fst (itemBody w item [] db) = Rejected e ->
        fst (warehouseBody w [] db) = Rejected e)
    /\ (forall before w after,
          fst (Warehouse_findAll companyId db)
          = Fulfilled (before ++ w :: after) ->
          (forall w', In w' before ->
                      exists l, fst (warehouseBody w' [] db) = Fulfilled l) ->
          fst (warehouseBody w [] db) = Rejected e ->
          fetchLowStockAlerts companyId db = (Rejected e, db)).
Proof.
  intros companyId db e. split.
  - intros w before item after Hi Hbefore Hitem.
    rewrite (warehouseBody_reading RO), Hi.
    now apply gather_first_rejection.
  - intros before w after Hws Hbefore Hw.
    rewrite (fetch_run RO), Hws. f_equal.
    now apply gather_first_rejection.
Qed.

End ServiceExtras.

(** ** The stockout estimate at and below zero stock *)

Lemma ofZ_sign_negative q : q < 0 -> JS.signIs true (JS.ofZ q).
Proof.
  intros Hq. unfold JS.ofZ, binary_normalize.
  destruct q as [|m|m]; [lia | lia |].
  unfold binary_round.
  destruct (shl_align m 0 _) as [mz ez]. apply binary_round_aux_sign.
Qed.

Lemma div_keeps_sign s x y :
  JS.signIs s x -> JS.gt y JS.zero = true -> JS.signIs s (JS.div x y).
Proof.
  intros Hx Hy. destruct (gt_zero_cases y Hy) as [->|(m & e & ->)];
    destruct x as [sx|sx| |sx mx ex]; simpl in *; subst;
      try (destruct s; reflexivity); trivial.
  destruct (SFdiv_core_binary _ _ _ _ _ _) as [[mz ez] lz].
  replace (xorb s false) with s by (now destruct s).
  apply binary_round_aux_sign.
Qed.

(** X6.  With a positive average, a row that is out of stock gets an
    estimate of 0 days. *)
Theorem X6_out_of_stock_gives_zero_days :
  forall avg,
    JS.gt avg JS.zero = true ->
    daysUntilStockout 0 avg = Some (JS.ofZ 0).
Proof.
  intros avg Hgt. rewrite (daysUntilStockout_floor _ _ Hgt).
  destruct (gt_zero_cases avg Hgt) as [->|(m & e & ->)]; reflexivity.
Qed.

(** X7.  The estimate is not clamped at zero.  With a positive average, a
    negative stock whose quotient by the average is a finite non-zero number
    gets a negative number of days. *)
Theorem X7_negative_stock_gives_negative_days :
  forall q avg s m e,
    q < 0 ->
    JS.gt avg JS.zero = true ->
    JS.div (JS.ofZ q) avg = S754_finite s m e ->
    exists n, n < 0 /\ daysUntilStockout q avg = Some (JS.ofZ n).
Proof.
  intros q avg s m e Hq Hgt Hdiv.
  rewrite (daysUntilStockout_floor _ _ Hgt), Hdiv. simpl.
  pose proof (div_keeps_sign true _ _ (ofZ_sign_negative q Hq) Hgt) as Hs.
  rewrite Hdiv in Hs. simpl in Hs. subst s.
  exists (JS.floorZ true m e). split; [|reflexivity].
  unfold JS.floorZ. simpl. apply Z.shiftl_neg. lia.
Qed.

(** ** The lookups one request makes *)

Lemma forOf_logged {A B L} (body : A -> list B -> Async (list L) (list B))
      (f : A -> list B) (g : A -> list L) :
  (forall x acc log, body x acc log = (Fulfilled (acc ++ f x), log ++ g x)) ->
  forall xs acc log,
    forOf xs body acc log
    = (Fulfilled (acc ++ flat_map f xs), log ++ flat_map g xs).
Proof.
  intros Hbody. induction xs as [|x xs IH]; intros acc log; simpl.
  - unfold ret. now rewrite !app_nil_r.
  - unfold bind. rewrite Hbody, IH. now rewrite <- !app_assoc.
Qed.

Lemma traced_itemBody ans w item acc log :
  @itemBody _ (Traced.access ans) w item acc log
  = (Fulfilled (acc ++ Traced.itemAlerts ans w item),
     log ++ Traced.itemCalls ans w item).
Proof.
  unfold itemBody, Traced.itemAlerts, Traced.itemCalls, Traced.belowThreshold.
  cbn [Traced.access getThresholdByProductType hasRecentSalesActivity
       getAverageDailySales getSupplierForProduct].
  destruct (Z.geb_spec (Inventory.quantity item)
              (Traced.threshold ans
                 (Product.product_type (Inventory.Product item)))) as [Hge|Hlt];
    destruct (Z.ltb_spec (Inventory.quantity item)
                (Traced.threshold ans
                   (Product.product_type (Inventory.Product item))));
    try lia.
  - unfold ret. now rewrite !app_nil_r.
  - unfold bind, Traced.logged, ret. simpl.
    destruct (Traced.recentSales ans _ _); simpl.
    + now rewrite <- !app_assoc.
    + now rewrite app_nil_r.
Qed.

Lemma traced_fetch ans companyId log :
  @fetchLowStockAlerts _ (Traced.access ans) companyId log
  = (Fulfilled (Traced.allAlerts ans companyId),
     log ++ Traced.allCalls ans companyId).
Proof.
  unfold fetchLowStockAlerts, Traced.allAlerts, Traced.allCalls, bind.
  cbn [Traced.access Warehouse_findAll]. unfold Traced.logged at 1.
  rewrite (forOf_logged _
             (fun w => flat_map (Traced.itemAlerts ans w)
                                (Traced.inventories ans (Warehouse.id w)))
             (fun w => Traced.FindInventory (Warehouse.id w)
                       :: flat_map (Traced.itemCalls ans w)
                                   (Traced.inventories ans (Warehouse.id w)))).
  - unfold ret. simpl. now rewrite <- app_assoc.
  - intros w acc l. unfold warehouseBody, bind.
    cbn [Traced.access Inventory_findAll]. unfold Traced.logged at 1.
    rewrite (forOf_logged _ (Traced.itemAlerts ans w) (Traced.itemCalls ans w)).
    + now rewrite <- app_assoc.
    + intros item a l'. apply traced_itemBody.
Qed.

Lemma count_cons kind c calls :
  Traced.count kind (c :: calls)
  = ((if kind c then 1 else 0) + Traced.count kind calls)%nat.
Proof. unfold Traced.count. simpl. now destruct (kind c). Qed.

Lemma count_flat_map {A B} kind (g : A -> list Traced.Call) (f : A -> list B) xs :
  (forall x, In x xs -> Traced.count kind (g x) = List.length (f x)) ->
  Traced.count kind (flat_map g xs) = List.length (flat_map f xs).
Proof.
  unfold Traced.count.
  induction xs as [|x xs IH]; simpl; intros H; [reflexivity|].
  rewrite filter_app, !length_app, (H x (or_introl eq_refl)), IH; auto.
Qed.

Lemma length_flat_map_nil {A B} (xs : list A) :
  List.length (flat_map (fun _ => @nil B) xs) = 0%nat.
Proof. induction xs; simpl; auto. Qed.

Lemma length_flat_map_singleton {A} (xs : list A) :
  List.length (flat_map (fun x => [x]) xs) = List.length xs.
Proof. induction xs; simpl; auto. Qed.

Lemma filter_of_flat_map {A B} (p : B -> bool) (f : A -> list B) xs :
  flat_map (fun x => filter p (f x)) xs = filter p (flat_map f xs).
Proof.
  induction xs as [|x xs IH]; simpl; [reflexivity|].
  now rewrite filter_app, IH.
Qed.

Lemma flat_map_filter_singleton {A} (p : A -> bool) xs :
  flat_map (fun x => filter p [x]) xs = filter p xs.
Proof.
  induction xs as [|x xs IH]; [reflexivity|].
  cbn [flat_map]. rewrite IH. simpl. now destruct (p x).
Qed.

(** X8.  The lookups of one request, counted on collaborators that log every
    call and never fail: one warehouse lookup, one inventory lookup per
    resolved warehouse, one sales-activity lookup per row below its
    threshold, and one average-sales and one supplier lookup per alert.  The
    log is only appended to. *)
Theorem X8_lookups_made_by_one_request :
  forall ans companyId log,
  exists alerts calls,
    @fetchLowStockAlerts _ (Traced.access ans) companyId log
    = (Fulfilled alerts, log ++ calls)
    /\ Traced.count Traced.isFindWarehouses calls = 1%nat
    /\ Traced.count Traced.isFindInventory calls
       = List.length (Traced.warehouses ans companyId)
    /\ Traced.count Traced.isRecentSales calls
       = List.length (filter (Traced.belowThreshold ans)
                             (Traced.rows ans companyId))
    /\ Traced.count Traced.isAverageSales calls = List.length alerts
    /\ Traced.count Traced.isSupplierFor calls = List.length alerts.
Proof.
  intros ans companyId log.
  exists (Traced.allAlerts ans companyId), (Traced.allCalls ans companyId).
  split; [apply traced_fetch|].
  unfold Traced.allCalls, Traced.allAlerts, Traced.rows.
  assert (Hitem : forall w item,
            Traced.count Traced.isFindWarehouses (Traced.itemCalls ans w item) = 0%nat
            /\ Traced.count Traced.isFindInventory (Traced.itemCalls ans w item) = 0%nat
            /\ Traced.count Traced.isRecentSales (Traced.itemCalls ans w item)
               = List.length (filter (Traced.belowThreshold ans) [item])
            /\ Traced.count Traced.isAverageSales (Traced.itemCalls ans w item)
               = List.length (Traced.itemAlerts ans w item)
            /\ Traced.count Traced.isSupplierFor (Traced.itemCalls ans w item)
               = List.length (Traced.itemAlerts ans w item)).
  { intros w item. unfold Traced.itemCalls, Traced.itemAlerts. simpl.
    destruct (Traced.belowThreshold ans item); simpl;
      [destruct (Traced.recentSales ans _ _)|]; repeat split. }
  rewrite !count_cons. cbn [Traced.isFindWarehouses Traced.isFindInventory
    Traced.isRecentSales Traced.isAverageSales Traced.isSupplierFor].
  repeat split.
  - rewrite (count_flat_map _ _ (fun _ => @nil unit)), length_flat_map_nil;
      [reflexivity|].
    intros w _. rewrite count_cons. simpl.
    rewrite (count_flat_map _ _ (fun _ => @nil unit)), length_flat_map_nil;
      [reflexivity|].
    intros item _. apply Hitem.
  - rewrite (count_flat_map _ _ (fun w => [w])), length_flat_map_singleton;
      [reflexivity|].
    intros w _. rewrite count_cons. simpl.
    rewrite (count_flat_map _ _ (fun _ => @nil unit)), length_flat_map_nil;
      [reflexivity|].
    intros item _. apply Hitem.
  - rewrite <- filter_of_flat_map. simpl.
    apply count_flat_map. intros w _. rewrite count_cons. simpl.
    rewrite <- flat_map_filter_singleton.
    apply count_flat_map. intros item _. apply Hitem.
  - simpl. apply count_flat_map. intros w _. rewrite count_cons. simpl.
    apply count_flat_map. intros item _. apply Hitem.
  - simpl. apply count_flat_map. intros w _. rewrite count_cons. simpl.
    apply count_flat_map. intros item _. apply Hitem.
Qed.

(** ** The further properties on the sample data *)

Lemma X1_widgetB_alert_witness :
  exists w item,
    In w (Store.warehouses Sample.store)
    /\ Alert.warehouse_name Sample.widgetB_main_alert = Warehouse.name w
    /\ Alert.product_name Sample.widgetB_main_alert
       = Product.name (Inventory.Product item)
    /\ Alert.current_stock Sample.widgetB_main_alert = Inventory.quantity item
    /\ Alert.threshold Sample.widgetB_main_alert
       = Sample.policy (Product.product_type (Inventory.Product item)).
Proof.
  destruct (@X1_alert_fields_come_from_a_visited_row
              Store.t (Relational.access Sample.policy) ltac:(repeat split)
              1 Sample.store Sample.alerts Sample.store Sample.widgetB_main_alert
              ltac:(vm_compute; reflexivity) ltac:(simpl; auto))
    as (ws & w & items & item & Hws & Hw & Hi & Hitem
        & _ & Hname & _ & _ & Hwname & Hstock & Hthr & _).
  injection Hws as <-.
  exists w, item. split; [exact Hw|]. repeat split; assumption.
Defined.

Lemma X2_sample_count_witness :
  (List.length Sample.alerts
   <= List.length
        (flat_map (@inventoryOf _ (Relational.access Sample.policy) Sample.store)
                  [Sample.mainWarehouse; Sample.eastWarehouse]))%nat.
Proof.
  apply (@X2_at_most_one_alert_per_visited_row
           Store.t (Relational.access Sample.policy) ltac:(repeat split)
           1 Sample.store Sample.alerts Sample.store).
  - vm_compute. reflexivity.
  - reflexivity.
Defined.

Lemma X3_widgetA_row_witness :
  exists avg sup,
    In (mkAlert Sample.mainWarehouse (Inventory.mk 10 5 Sample.widgetA)
                (Sample.policy "simple") (daysUntilStockout 5 avg) sup)
       Sample.alerts.
Proof.
  destruct (@X3_every_gated_row_is_alerted
              Store.t (Relational.access Sample.policy) ltac:(repeat split)
              1 Sample.store Sample.alerts Sample.store
              [Sample.mainWarehouse; Sample.eastWarehouse] Sample.mainWarehouse
              [Inventory.mk 10 5 Sample.widgetB; Inventory.mk 10 5 Sample.widgetA;
               Inventory.mk 10 20 Sample.widgetC]
              (Inventory.mk 10 5 Sample.widgetA)
              ltac:(vm_compute; reflexivity) ltac:(reflexivity)
              ltac:(simpl; auto) ltac:(reflexivity) ltac:(simpl; auto)
              ltac:(reflexivity) ltac:(reflexivity))
    as (avg & sup & _ & _ & Hin).
  exists avg, sup. exact Hin.
Defined.

Lemma X4_gated_rows_witness :
  @fetchLowStockAlerts unit Gated.access 1 tt = (Fulfilled [], tt).
Proof.
  apply (@X4_rows_failing_a_gate_need_no_further_lookup
           unit Gated.access) with (ws := [Sample.mainWarehouse]).
  - unfold queriesOnly, query. repeat split; intros; simpl.
    unfold Gated.hasRecentSalesActivity. destruct (_ =? _); reflexivity.
  - reflexivity.
  - intros w [<-|[]].
    exists [Inventory.mk 10 20 Sample.widgetC; Inventory.mk 10 5 Sample.widgetB].
    split; [reflexivity|].
    intros item [<-|[<-|[]]]; [left; vm_compute; discriminate | right; reflexivity].
Defined.

Lemma X5_first_rejection_witness :
  @fetchLowStockAlerts unit Flaky.supplierDown 1 tt
  = (Rejected DependencyFailure, tt).
Proof.
  destruct (@X5_rejected_with_the_first_rejection
              unit Flaky.supplierDown
              ltac:(unfold queriesOnly, query; repeat split; intros; simpl;
                    unfold Flaky.supplierLookupDown;
                    destruct (_ =? _); reflexivity)
              1 tt DependencyFailure)
    as [Hrow Hwarehouse].
  apply (Hwarehouse [] Sample.mainWarehouse []).
  - reflexivity.
  - intros w' [].
  - apply (Hrow Sample.mainWarehouse []
                (Inventory.mk 10 5 Sample.widgetA)
                [Inventory.mk 10 5 Sample.widgetB]).
    + reflexivity.
    + intros i [].
    + reflexivity.
Defined.

Lemma X6_out_of_stock_witness :
  daysUntilStockout 0 (JS.div (JS.ofZ 10) (JS.ofZ 30)) = Some (JS.ofZ 0).
Proof. apply X6_out_of_stock_gives_zero_days. reflexivity. Defined.

Lemma X7_negative_stock_witness :
  exists n, n < 0 /\ daysUntilStockout (-3) (JS.ofZ 1) = Some (JS.ofZ n).
Proof.
  eapply X7_negative_stock_gives_negative_days.
  - reflexivity.
  - reflexivity.
  - vm_compute. reflexivity.
Defined.

(* ===================================================================== *)
(** * Rejections, the stockout estimate and repeated requests *)

(** ** A loop stops at the first rejected iteration *)

Lemma forOf_rejects_at {DB A S} (body : A -> S -> Async DB S)
      before x after s db s1 db1 e db2 :
  forOf before body s db = (Fulfilled s1, db1) ->
  body x s1 db1 = (Rejected e, db2) ->
  forOf (before ++ x :: after) body s db = (Rejected e, db2).
Proof.
  revert s db. induction before as [|y before IH]; simpl; intros s db Hbefore Hx.
  - unfold ret in Hbefore. injection Hbefore as <- <-.
    unfold bind. now rewrite Hx.
  - unfold bind in *. destruct (body y s db) as [[s'|e'] d']; [|discriminate].
    now apply IH.
Qed.




(** C2 (as amended).  The service has no error handling: a rejected lookup
    rejects the whole request with that very rejection, and the store after
    the request is exactly the store the rejected lookup left, so no later
    lookup has left a trace.  For arbitrary collaborators, which may write
    (for instance record each call): the warehouse lookup;
    the iteration of a warehouse, once the warehouses before it went through;
    the inventory lookup of a warehouse; the iteration of a row, once the
    rows before it went through; and, for a row below its threshold, the
    sales-activity lookup, the average-sales lookup once recent sales are
    reported, and the supplier lookup after that.  For query collaborators in
    particular, any row below its threshold with a rejected sales-activity,
    average-sales or supplier lookup makes the request be rejected.  In no
    case is an alert returned with a null supplier in place of the failure or
    the row skipped. *)
Theorem C2_rejected_lookup_rejects_and_stops_the_request :
  forall DB (access : DataAccess DB),
    (forall companyId db e db1,
        Warehouse_findAll companyId db = (Rejected e, db1) ->
        fetchLowStockAlerts companyId db = (Rejected e, db1))
    /\ (forall companyId db before w after db0 acc db1 e db2,
          Warehouse_findAll companyId db = (Fulfilled (before ++ w :: after), db0) ->
          forOf before warehouseBody [] db0 = (Fulfilled acc, db1) ->
          warehouseBody w acc db1 = (Rejected e, db2) ->
          fetchLowStockAlerts companyId db = (Rejected e, db2))
    /\ (forall w acc db e db1,
          Inventory_findAll (Warehouse.id w) db = (Rejected e, db1) ->
          warehouseBody w acc db = (Rejected e, db1))
    /\ (forall w acc db before item after db0 acc' db1 e db2,
          Inventory_findAll (Warehouse.id w) db
          = (Fulfilled (before ++ item :: after), db0) ->
          forOf before (itemBody w) acc db0 = (Fulfilled acc', db1) ->
          itemBody w item acc' db1 = (Rejected e, db2) ->
          warehouseBody w acc db = (Rejected e, db2))
    /\ (forall w item acc db,
          let p := Product.id (Inventory.Product item) in
          Inventory.quantity item
          < getThresholdByProductType
              (Product.product_type (Inventory.Product item)) ->
          (forall e db1,
              hasRecentSalesActivity p (Warehouse.id w) db = (Rejected e, db1) ->
              itemBody w item acc db = (Rejected e, db1))
          /\ (forall db1 e db2,
                hasRecentSalesActivity p (Warehouse.id w) db
                = (Fulfilled true, db1) ->
                getAverageDailySales p (Warehouse.id w) db1 = (Rejected e, db2) ->
                itemBody w item acc db = (Rejected e, db2))
          /\ (forall db1 avg db2 e db3,
                hasRecentSalesActivity p (Warehouse.id w) db
                = (Fulfilled true, db1) ->
                getAverageDailySales p (Warehouse.id w) db1
                = (Fulfilled avg, db2) ->
                getSupplierForProduct p db2 = (Rejected e, db3) ->
                itemBody w item acc db = (Rejected e, db3)))
    /\ (queriesOnly access ->
        forall companyId db ws w items item e,
          fst (Warehouse_findAll companyId db) = Fulfilled ws -> In w ws ->
          fst (Inventory_findAll (Warehouse.id w) db) = Fulfilled items ->
          In item items ->
          Inventory.quantity item
          < getThresholdByProductType
              (Product.product_type (Inventory.Product item)) ->
          let p := Product.id (Inventory.Product item) in
          fst (hasRecentSalesActivity p (Warehouse.id w) db) = Rejected e
          \/ (fst (hasRecentSalesActivity p (Warehouse.id w) db) = Fulfilled true
              /\ (fst (getAverageDailySales p (Warehouse.id w) db) = Rejected e
                  \/ fst (getSupplierForProduct p db) = Rejected e)) ->
          exists e', fst (fetchLowStockAlerts companyId db) = Rejected e').
Proof.
  intros DB access. repeat apply conj.
  - intros companyId db e db1 H. unfold fetchLowStockAlerts, bind. now rewrite H.
  - intros companyId db before w after db0 acc db1 e db2 Hws Hbefore Hw.
    unfold fetchLowStockAlerts, bind. rewrite Hws.
    now rewrite (forOf_rejects_at _ _ _ _ _ _ _ _ _ _ Hbefore Hw).
  - intros w acc db e db1 H. unfold warehouseBody, bind. now rewrite H.
  - intros w acc db before item after db0 acc' db1 e db2 Hi Hbefore Hitem.
    unfold warehouseBody, bind. rewrite Hi.
    apply (forOf_rejects_at _ _ _ _ _ _ _ _ _ _ Hbefore Hitem).
  - intros w item acc db p Hlt.
    assert (Hgate : (Inventory.quantity item
                     >=? getThresholdByProductType
                           (Product.product_type (Inventory.Product item)))
                    = false).
    { destruct (Z.geb_spec (Inventory.quantity item)
                  (getThresholdByProductType
                     (Product.product_type (Inventory.Product item))));
        [lia|reflexivity]. }
    repeat apply conj.
    + intros e db1 Hs. unfold itemBody, bind. rewrite Hgate. fold p.
      now rewrite Hs.
    + intros db1 e db2 Hs Ha. unfold itemBody, bind. rewrite Hgate. fold p.
      rewrite Hs. simpl. now rewrite Ha.
    + intros db1 avg db2 e db3 Hs Ha Hp. unfold itemBody, bind. rewrite Hgate.
      fold p. rewrite Hs. simpl. rewrite Ha. now rewrite Hp.
  - intros RO companyId db ws w items item e Hws Hw Hi Hitem Hlt p Hfail.
    destruct (failed_lookup_rejects_the_request RO companyId db) as [_ H].
    destruct (H ws w Hws Hw) as [_ Hrow].
    exact (Hrow items item e Hi Hitem Hlt Hfail).
Qed.

(** C6 (as amended).  For every alert of a fulfilled run, with [avg] the
    average daily sales the lookup returns for the alert's product and
    warehouse, all arithmetic being binary64: [days_until_stockout] is [null]
    exactly when [avg > 0] fails, which for a non-negative average is exactly
    when the average is zero, and nothing is divided in that case; otherwise
    it is [Math.floor] of the rounded quotient [current_stock / avg].  That
    value is not clamped: it is a non-negative integer when the current stock
    is non-negative and the quotient finite, and a negative integer when the
    current stock is negative and the quotient finite and non-zero.  A stock
    of 5 with 10 units sold, an average of [10 / 30], gives 15; a stock of 23
    with 23 units sold gives 29, the quotient being rounded below 30. *)
Theorem C6_days_until_stockout_in_binary64 :
  forall DB (access : DataAccess DB),
    queriesOnly access ->
    (forall companyId db alerts db' a,
        fetchLowStockAlerts companyId db = (Fulfilled alerts, db') ->
        In a alerts ->
        exists avg,
          fst (getAverageDailySales (Alert.product_id a) (Alert.warehouse_id a) db)
          = Fulfilled avg
          /\ (Alert.days_until_stockout a = None <-> JS.gt avg JS.zero = false)
          /\ (JS.ge avg JS.zero = true ->
              (Alert.days_until_stockout a = None <-> JS.eqb avg JS.zero = true))
          /\ (JS.gt avg JS.zero = true ->
              let quotient := JS.div (JS.ofZ (Alert.current_stock a)) avg in
              Alert.days_until_stockout a = Some (JS.Math_floor quotient)
              /\ (0 <= Alert.current_stock a ->
                  JS.is_finite quotient = true ->
                  exists n, 0 <= n
                            /\ Alert.days_until_stockout a = Some (JS.ofZ n))
              /\ (Alert.current_stock a < 0 ->
                  forall s m e,
                    quotient = S754_finite s m e ->
                    exists n, n < 0
                              /\ Alert.days_until_stockout a = Some (JS.ofZ n))))
    /\ daysUntilStockout 5 (JS.div (JS.ofZ 10) (JS.ofZ 30)) = Some (JS.ofZ 15)
    /\ daysUntilStockout 23 (JS.div (JS.ofZ 23) (JS.ofZ 30)) = Some (JS.ofZ 29).
Proof.
  intros DB access RO.
  split; [|split; vm_compute; reflexivity].
  intros companyId db alerts db' a H Ha.
  destruct (proj1 (days_until_stockout_of_an_alert RO) _ _ _ _ _ H Ha)
    as (avg & Havg & Hnull & Hzero & Hpos).
  exists avg. do 3 (split; [assumption|]).
  intros Hgt quotient. destruct (Hpos Hgt) as [Hfloor Hnonneg].
  split; [exact Hfloor|]. split; [exact Hnonneg|].
  intros Hneg s m e Hq. rewrite Hfloor. fold quotient. rewrite Hq. simpl.
  pose proof (div_keeps_sign true _ _ (ofZ_sign_negative _ Hneg) Hgt) as Hs.
  fold quotient in Hs. rewrite Hq in Hs. simpl in Hs. subst s.
  exists (JS.floorZ true m e). split; [|reflexivity].
  unfold JS.floorZ. simpl. apply Z.shiftl_neg. lia.
Qed.


(** ** The amended properties on the sample data *)

(** C6, counterexample.  The oversold row passes both gates and its alert
    reports -3 days, which is not a non-negative integer. *)
Lemma C6_oversold_row_alerts_with_negative_days :
  Relational.fetchLowStockAlerts Sample.policy 1 Variants.oversold
  = (Fulfilled [Variants.oversold_alert], Variants.oversold)
  /\ Alert.days_until_stockout Variants.oversold_alert = Some (JS.ofZ (-3))
  /\ ~ (exists n, 0 <= n
                  /\ Alert.days_until_stockout Variants.oversold_alert
                     = Some (JS.ofZ n)).
Proof.
  split; [vm_compute; reflexivity|]. split; [reflexivity|].
  intros (n & Hn & E). injection E as E.
  pose proof (ofZ_sign n Hn) as Hs. rewrite <- E in Hs.
  vm_compute in Hs. discriminate.
Qed.

(** The same rows returned in another order give the alerts in another
    order, and the same tables read two days later give one alert more. *)
Example reordered_rows_reorder_the_alerts :
  map alertKey
      (fulfilledOr (fst (Relational.fetchLowStockAlerts
                           Sample.policy 1 Variants.reordered)))
  = [(10, 123); (10, 124); (11, 123)].
Proof. vm_compute. reflexivity. Qed.

Example later_clock_adds_an_alert :
  map alertKey
      (fulfilledOr (fst (Relational.fetchLowStockAlerts
                           Sample.policy 1 Variants.twoDaysLater)))
  = [(10, 124); (10, 123); (11, 123); (11, 200)].
Proof. vm_compute. reflexivity. Qed.

Lemma C2_logged_rejection_witness :
  @fetchLowStockAlerts _ TracedDown.access 1 []
  = (Rejected DependencyFailure,
     [Traced.FindWarehouses 1; Traced.FindInventory 10;
      Traced.RecentSales 123 10; Traced.AverageSales 123 10;
      Traced.SupplierFor 123])
  /\ exists e',
      fst (@fetchLowStockAlerts unit Flaky.supplierDown 1 tt) = Rejected e'.
Proof.
  split.
  - destruct (C2_rejected_lookup_rejects_and_stops_the_request
                (list Traced.Call) TracedDown.access)
      as (_ & Hwarehouse & _ & Hrow & Hlookup & _).
    apply (Hwarehouse 1 [] [] Sample.mainWarehouse []
                      [Traced.FindWarehouses 1] []
                      [Traced.FindWarehouses 1]); [reflexivity | reflexivity |].
    apply (Hrow Sample.mainWarehouse [] [Traced.FindWarehouses 1] []
                (Inventory.mk 10 5 Sample.widgetA)
                [Inventory.mk 10 5 Sample.widgetB]
                [Traced.FindWarehouses 1; Traced.FindInventory 10] []
                [Traced.FindWarehouses 1; Traced.FindInventory 10]);
      [reflexivity | reflexivity |].
    apply (Hlookup Sample.mainWarehouse (Inventory.mk 10 5 Sample.widgetA) []
                   [Traced.FindWarehouses 1; Traced.FindInventory 10]
                   ltac:(reflexivity))
      with (db1 := [Traced.FindWarehouses 1; Traced.FindInventory 10;
                    Traced.RecentSales 123 10])
           (avg := JS.ofZ 1)
           (db2 := [Traced.FindWarehouses 1; Traced.FindInventory 10;
                    Traced.RecentSales 123 10; Traced.AverageSales 123 10]);
      reflexivity.
  - destruct (C2_rejected_lookup_rejects_and_stops_the_request
                unit Flaky.supplierDown) as (_ & _ & _ & _ & _ & Hquery).
    apply (Hquery
             ltac:(unfold queriesOnly, query; repeat split; intros; simpl;
                   unfold Flaky.supplierLookupDown;
                   destruct (_ =? _); reflexivity)
             1 tt [Sample.mainWarehouse] Sample.mainWarehouse
             [Inventory.mk 10 5 Sample.widgetA; Inventory.mk 10 5 Sample.widgetB]
             (Inventory.mk 10 5 Sample.widgetA) DependencyFailure).
    + reflexivity.
    + simpl. auto.
    + reflexivity.
    + simpl. auto.
    + reflexivity.
    + right. split; [reflexivity|]. right. reflexivity.
Defined.

Lemma C6_estimates_witness :
  (exists n, 0 <= n
             /\ Alert.days_until_stockout Sample.widgetA_main_alert
                = Some (JS.ofZ n))
  /\ (exists n, n < 0
                /\ Alert.days_until_stockout Variants.oversold_alert
                   = Some (JS.ofZ n)).
Proof.
  pose proof (proj1 (C6_days_until_stockout_in_binary64
                       Store.t (Relational.access Sample.policy)
                       ltac:(repeat split))) as Hdays.
  split.
  - destruct (Hdays 1 Sample.store Sample.alerts Sample.store
                    Sample.widgetA_main_alert
                    ltac:(vm_compute; reflexivity) ltac:(simpl; auto))
      as (avg & Havg & _ & _ & Hgt).
    injection Havg as <-.
    apply Hgt; [vm_compute; reflexivity | simpl; lia | vm_compute; reflexivity].
  - destruct (Hdays 1 Variants.oversold [Variants.oversold_alert] Variants.oversold
                    Variants.oversold_alert
                    ltac:(vm_compute; reflexivity) ltac:(simpl; auto))
      as (avg & Havg & _ & _ & Hgt).
    injection Havg as <-.
    eapply Hgt; [vm_compute; reflexivity | simpl; lia | vm_compute; reflexivity].
Defined.

